(** * persist/sqldb: building a database session from the persistence config

    A shallow embedding of [persist/sqldb/sqldb.go].  The file is glue code:
    it reads a configuration, asks the secret store for credentials, fills a
    connection descriptor, opens a session through the database client and
    tunes its pool.  All collaborators live outside the file, so they are
    gathered in a record [Env]; every call the code makes to one of them is
    logged in a trace, and the objects the code shares by reference (Go maps,
    the MySQL driver's TLS registry, sessions) live in an explicit store. *)

From stdpp Require Import gmap strings list fin_maps.

Open Scope string_scope.
Open Scope list_scope.
Open Scope Z_scope.

(** ** Data model *)

(** [apiv1.SecretKeySelector]: the embedded [LocalObjectReference] contributes
    [Name]; [Optional] is a [*bool]. *)
Record SecretKeySelector := {
  Name : string;
  Key : string;
  Optional : option bool
}.

(** The zero value [apiv1.SecretKeySelector{}]. *)
Definition SecretKeySelector_zero : SecretKeySelector :=
  {| Name := ""; Key := ""; Optional := None |}.

#[global] Instance SecretKeySelector_eq_dec : EqDecision SecretKeySelector.
Proof. solve_decision. Defined.

(** A Go map is a reference: configurations and descriptors hold the address
    of a map, the store holds its contents. *)
Definition MapRef := positive.

(** A [sqlbuilder.Database] value handed out by the database client. *)
Definition Session := positive.

(** [config.ConnectionPool]; [ConnMaxLifetime] is a duration, an [int64]. *)
Record ConnectionPool := {
  MaxIdleConns : Z;
  MaxOpenConns : Z;
  ConnMaxLifetime : Z
}.

(** [config.PostgreSQLConfig], with the fields this file reads (package
    [config] declares the type).  The field [GetHostname] stands for the
    result of the method [cfg.GetHostname()], which package [config]
    defines. *)
Module PostgreSQLConfig.
Record t := {
  GetHostname : string;
  Database : string;
  TableName : string;
  UsernameSecret : SecretKeySelector;
  PasswordSecret : SecretKeySelector;
  SSL : bool;
  SSLMode : string
}.
End PostgreSQLConfig.

(** [config.MySQLConfig]; [Options] is a [map[string]string], [None] when
    the map is nil. *)
Module MySQLConfig.
Record t := {
  GetHostname : string;
  Database : string;
  TableName : string;
  UsernameSecret : SecretKeySelector;
  PasswordSecret : SecretKeySelector;
  Options : option MapRef;
  CaCertSecret : SecretKeySelector
}.
End MySQLConfig.

(** [config.PersistConfig]: two nullable backend pointers and a nullable
    pool. *)
Module PersistConfig.
Record t := {
  PostgreSQL : option PostgreSQLConfig.t;
  MySQL : option MySQLConfig.t;
  ConnectionPool : option ConnectionPool
}.
End PersistConfig.

(** Go error values, told apart by where they are made: the two constructors
    this file calls itself, and the errors handed back by a collaborator. *)
Inductive error :=
| InternalError (msg : string)        (* errors.InternalError(msg) *)
| Errorf (msg : string)               (* fmt.Errorf(msg) *)
| GetSecretsError (msg : string)      (* from util.GetSecrets *)
| RegisterTLSConfigError (msg : string) (* from mysqldriver.RegisterTLSConfig *)
| OpenError (msg : string)            (* from postgresql.Open / mysql.Open *)
| ExecError (msg : string).           (* from session.Exec *)

#[global] Instance error_eq_dec : EqDecision error.
Proof. solve_decision. Defined.

Inductive Backend := Postgres | Mysql.

#[global] Instance Backend_eq_dec : EqDecision Backend.
Proof. solve_decision. Defined.

(** [postgresql.ConnectionURL] and [mysql.ConnectionURL] have the same fields
    as far as this file fills them. *)
Module ConnectionURL.
Record t := {
  User : string;
  Password : string;
  Host : string;
  Database : string;
  Options : option MapRef
}.
End ConnectionURL.

(** What [Open] reads from a [ConnectionURL]: its fields, with the contents of
    the options map at the time of the call. *)
Record Descriptor := {
  d_User : string;
  d_Password : string;
  d_Host : string;
  d_Database : string;
  d_Options : option (gmap string string)
}.

#[global] Instance Descriptor_eq_dec : EqDecision Descriptor.
Proof. solve_decision. Defined.

(** The state of an open session as a recording double of the database client
    sees it: how it was opened, the pool limits set so far, the statements
    executed so far. *)
Record SessionState := {
  s_backend : Backend;
  s_descriptor : Descriptor;
  s_maxOpenConns : option Z;
  s_maxIdleConns : option Z;
  s_connMaxLifetime : option Z;
  s_executed : list string
}.

#[global] Instance SessionState_eq_dec : EqDecision SessionState.
Proof. solve_decision. Defined.

(** A call to a collaborator, with whether it succeeded. *)
Inductive Event :=
| EvGetSecrets (namespace name key : string) (ok : bool)
| EvAppendCertsFromPEM (pem : string) (ok : bool)
| EvRegisterTLSConfig (key : string) (ok : bool)
| EvOpen (b : Backend) (d : Descriptor) (ok : bool)
| EvSetMaxOpenConns (n : Z)
| EvSetMaxIdleConns (n : Z)
| EvSetConnMaxLifetime (d : Z)
| EvExec (stmt : string) (ok : bool).

#[global] Instance Event_eq_dec : EqDecision Event.
Proof. solve_decision. Defined.

Definition ev_failed (ev : Event) : bool :=
  match ev with
  | EvGetSecrets _ _ _ ok | EvAppendCertsFromPEM _ ok
  | EvRegisterTLSConfig _ ok | EvOpen _ _ ok | EvExec _ ok => negb ok
  | EvSetMaxOpenConns _ | EvSetMaxIdleConns _ | EvSetConnMaxLifetime _ => false
  end.

(** The store. *)
Record State := {
  maps : gmap MapRef (gmap string string);     (* Go maps, by address *)
  tlsConfigRegistry : gmap string (list string);
                                 (* the MySQL driver's registry: name -> RootCAs *)
  sessions : gmap Session SessionState;        (* sessions opened so far *)
  trace : list Event                           (* calls made, oldest first *)
}.

Definition emit (ev : Event) (st : State) : State :=
  {| maps := maps st; tlsConfigRegistry := tlsConfigRegistry st;
     sessions := sessions st; trace := trace st ++ [ev] |}.

Definition set_maps (m : gmap MapRef (gmap string string)) (st : State) : State :=
  {| maps := m; tlsConfigRegistry := tlsConfigRegistry st;
     sessions := sessions st; trace := trace st |}.

Definition set_registry (r : gmap string (list string)) (st : State) : State :=
  {| maps := maps st; tlsConfigRegistry := r;
     sessions := sessions st; trace := trace st |}.

Definition set_sessions (s : gmap Session SessionState) (st : State) : State :=
  {| maps := maps st; tlsConfigRegistry := tlsConfigRegistry st;
     sessions := s; trace := trace st |}.

(** The contents of the map at an address (a map never seen before is
    empty). *)
Definition map_at (st : State) (l : MapRef) : gmap string string :=
  default ∅ (maps st !! l).

Definition read_settings (st : State) (u : ConnectionURL.t) : Descriptor :=
  {| d_User := ConnectionURL.User u;
     d_Password := ConnectionURL.Password u;
     d_Host := ConnectionURL.Host u;
     d_Database := ConnectionURL.Database u;
     d_Options := map_at st <$> ConnectionURL.Options u |}.

(** ** Collaborators *)

Inductive outcome (A : Type) :=
| Success (a : A)
| Failure (msg : string).
Arguments Success {A} a.
Arguments Failure {A} msg.

(** The behaviour of everything the file calls but does not define: the
    repository's own [util.GetSecrets] (package [util], with the interface
    namespace, secret name, key to bytes or error), the standard library's
    x509 and the database drivers.  They are parameters of the model, and
    deterministic: a call's answer depends on its arguments only.  Byte
    slices are strings, since the code only converts them with [string(_)]
    or hands them on. *)
Record Env := {
  (* util.GetSecrets(ctx, kubectlConfig, namespace, name, key) *)
  GetSecrets : string -> string -> string -> outcome string;
  (* the certificates x509 parses out of a PEM blob; AppendCertsFromPEM
     reports success when there is at least one *)
  pemCerts : string -> list string;
  (* the error of mysqldriver.RegisterTLSConfig(key, _), if any *)
  RegisterTLSConfig_err : string -> option string;
  (* the error of postgresql.Open / mysql.Open on a descriptor, if any *)
  Open_err : Backend -> Descriptor -> option string;
  (* the error of session.Exec(stmt) on a session in a given state, if any *)
  Exec_err : SessionState -> string -> option string
}.

(** ** Return values *)

(** What a [return] statement of the session builders hands back.  The
    builders are declared to return [(sqlbuilder.Database, error)]; three
    [return] statements of [CreateMySQLDBSession] list three values. *)
Inductive Ret :=
| Ret2 (session : option Session) (err : option error)
| Ret3 (session : option Session) (s : string) (err : option error).

#[global] Instance Ret_eq_dec : EqDecision Ret.
Proof. solve_decision. Defined.

Definition ret_session (r : Ret) : option Session :=
  match r with Ret2 s _ | Ret3 s _ _ => s end.

Definition ret_error (r : Ret) : option error :=
  match r with Ret2 _ e | Ret3 _ _ e => e end.

(** Does the returned tuple fit the declared two-value signature? *)
Definition well_formed_return (r : Ret) : bool :=
  match r with Ret2 _ _ => true | Ret3 _ _ _ => false end.

(** ** A state monad with early return *)

Inductive flow (A : Type) :=
| Next (a : A)
| Return (r : Ret).
Arguments Next {A} a.
Arguments Return {A} r.

Definition M (A : Type) : Type := State -> flow A * State.

Definition pure {A} (a : A) : M A := fun st => (Next a, st).

Definition return_ {A} (r : Ret) : M A := fun st => (Return r, st).

Definition bind {A B} (m : M A) (k : A -> M B) : M B :=
  fun st =>
    match m st with
    | (Next a, st') => k a st'
    | (Return r, st') => (Return r, st')
    end.

Notation "'let*' x ':=' c 'in' k" := (bind c (fun x => k))
  (at level 10, x name, c at level 100, k at level 200).
Notation "c ';;' k" := (bind c (fun _ => k))
  (at level 100, k at level 200, right associativity).

(** [v, err := call; if err != nil { return onErr(err) }] *)
Definition orReturn {A} (call : M (A + error)) (onErr : error -> Ret) : M A :=
  let* r := call in
  match r with
  | inl v => pure v
  | inr err => return_ (onErr err)
  end.

(** The body of a function whose every path ends in a [return]. *)
Definition run (body : M Ret) (st : State) : Ret * State :=
  match body st with
  | (Next r, st') | (Return r, st') => (r, st')
  end.

(** ** Calls to collaborators *)

Section Code.

Context (E : Env).

(** [util.GetSecrets(ctx, kubectlConfig, namespace, name, key)] *)
Definition util_GetSecrets (namespace name key : string) : M (string + error) :=
  fun st =>
    match GetSecrets E namespace name key with
    | Success bytes => (Next (inl bytes), emit (EvGetSecrets namespace name key true) st)
    | Failure msg =>
        (Next (inr (GetSecretsError msg)), emit (EvGetSecrets namespace name key false) st)
    end.

(** [map[string]string{...}]: a new map at an unused address. *)
Definition new_map (contents : gmap string string) : M MapRef :=
  fun st =>
    let l := fresh (dom (maps st)) in
    (Next l, set_maps (<[l := contents]> (maps st)) st).

(** [m[k] = v] *)
Definition map_store (l : MapRef) (k v : string) : M unit :=
  fun st => (Next tt, set_maps (<[l := <[k := v]> (map_at st l)]> (maps st)) st).

(** [pool := x509.NewCertPool(); ok := pool.AppendCertsFromPEM(pem)]: the
    pool after the call, and [ok]. *)
Definition x509_AppendCertsFromPEM (pem : string) : M (list string * bool) :=
  fun st =>
    let certs := pemCerts E pem in
    let ok := match certs with [] => false | _ => true end in
    (Next (certs, ok), emit (EvAppendCertsFromPEM pem ok) st).

(** [mysqldriver.RegisterTLSConfig(key, &tls.Config{RootCAs: pool})]: on
    success the driver's registry holds the configuration under [key]. *)
Definition mysqldriver_RegisterTLSConfig (key : string) (pool : list string)
  : M (unit + error) :=
  fun st =>
    match RegisterTLSConfig_err E key with
    | Some msg =>
        (Next (inr (RegisterTLSConfigError msg)), emit (EvRegisterTLSConfig key false) st)
    | None =>
        (Next (inl tt),
         emit (EvRegisterTLSConfig key true)
           (set_registry (<[key := pool]> (tlsConfigRegistry st)) st))
    end.

(** [postgresql.Open(settings)] / [mysql.Open(settings)]: on success a new
    session with no pool limit set and nothing executed. *)
Definition db_Open (b : Backend) (settings : ConnectionURL.t) : M (Session + error) :=
  fun st =>
    let d := read_settings st settings in
    match Open_err E b d with
    | Some msg => (Next (inr (OpenError msg)), emit (EvOpen b d false) st)
    | None =>
        let h := fresh (dom (sessions st)) in
        let s := {| s_backend := b; s_descriptor := d;
                    s_maxOpenConns := None; s_maxIdleConns := None;
                    s_connMaxLifetime := None; s_executed := [] |} in
        (Next (inl h), emit (EvOpen b d true) (set_sessions (<[h := s]> (sessions st)) st))
    end.

Definition with_maxOpenConns (n : Z) (s : SessionState) : SessionState :=
  {| s_backend := s_backend s; s_descriptor := s_descriptor s;
     s_maxOpenConns := Some n; s_maxIdleConns := s_maxIdleConns s;
     s_connMaxLifetime := s_connMaxLifetime s; s_executed := s_executed s |}.

Definition with_maxIdleConns (n : Z) (s : SessionState) : SessionState :=
  {| s_backend := s_backend s; s_descriptor := s_descriptor s;
     s_maxOpenConns := s_maxOpenConns s; s_maxIdleConns := Some n;
     s_connMaxLifetime := s_connMaxLifetime s; s_executed := s_executed s |}.

Definition with_connMaxLifetime (d : Z) (s : SessionState) : SessionState :=
  {| s_backend := s_backend s; s_descriptor := s_descriptor s;
     s_maxOpenConns := s_maxOpenConns s; s_maxIdleConns := s_maxIdleConns s;
     s_connMaxLifetime := Some d; s_executed := s_executed s |}.

Definition with_executed (stmt : string) (s : SessionState) : SessionState :=
  {| s_backend := s_backend s; s_descriptor := s_descriptor s;
     s_maxOpenConns := s_maxOpenConns s; s_maxIdleConns := s_maxIdleConns s;
     s_connMaxLifetime := s_connMaxLifetime s;
     s_executed := s_executed s ++ [stmt] |}.

(** [session.SetMaxOpenConns(n)] and its two siblings: setters of the
    database client, which cannot fail. *)
Definition SetMaxOpenConns (session : Session) (n : Z) : M unit :=
  fun st =>
    (Next tt, emit (EvSetMaxOpenConns n)
                (set_sessions (alter (with_maxOpenConns n) session (sessions st)) st)).

Definition SetMaxIdleConns (session : Session) (n : Z) : M unit :=
  fun st =>
    (Next tt, emit (EvSetMaxIdleConns n)
                (set_sessions (alter (with_maxIdleConns n) session (sessions st)) st)).

Definition SetConnMaxLifetime (session : Session) (d : Z) : M unit :=
  fun st =>
    (Next tt, emit (EvSetConnMaxLifetime d)
                (set_sessions (alter (with_connMaxLifetime d) session (sessions st)) st)).

(** [_, err = session.Exec(stmt)]; the builders only execute on the session
    they have just opened, which is in the store (a handle that names no
    session cannot be executed on). *)
Definition Exec (session : Session) (stmt : string) : M (unit + error) :=
  fun st =>
    match sessions st !! session with
    | None => (Next (inr (ExecError "no such session")), emit (EvExec stmt false) st)
    | Some s =>
        match Exec_err E s stmt with
        | Some msg => (Next (inr (ExecError msg)), emit (EvExec stmt false) st)
        | None =>
            (Next (inl tt),
             emit (EvExec stmt true)
               (set_sessions (<[session := with_executed stmt s]> (sessions st)) st))
        end
    end.

(** ** The functions of sqldb.go *)

(** [GetTableName]; the pointer [persistConfig] is dereferenced
    unconditionally, so the argument is a configuration. *)
Definition GetTableName (persistConfig : PersistConfig.t) : string * option error :=
  let tableName :=
    match PersistConfig.PostgreSQL persistConfig with
    | Some pg => PostgreSQLConfig.TableName pg
    | None =>
        match PersistConfig.MySQL persistConfig with
        | Some my => MySQLConfig.TableName my
        | None => ""
        end
    end in
  if bool_decide (tableName = "")
  then ("", Some (InternalError "TableName is empty"))
  else (tableName, None).

(** [ConfigureDBSession]; [session] is an open session, as in both
    callers, which pass what [Open] has just returned. *)
Definition ConfigureDBSession (session : Session) (persistPool : option ConnectionPool)
  : M Session :=
  match persistPool with
  | Some pool =>
      SetMaxOpenConns session (MaxOpenConns pool);;
      SetMaxIdleConns session (MaxIdleConns pool);;
      SetConnMaxLifetime session (ConnMaxLifetime pool);;
      pure session
  | None => pure session
  end.

(** [CreatePostGresDBSession]; [cfg] is what the pointer refers to
    ([CreateDBSession] passes a pointer it has tested).  The descriptor is
    assembled once its options are known, which the code does by assigning
    [settings.Options] after the struct literal. *)
Definition CreatePostGresDBSession (namespace : string) (cfg : PostgreSQLConfig.t)
    (persistPool : option ConnectionPool) : State -> Ret * State :=
  run (
    let* userNameByte :=
      orReturn (util_GetSecrets namespace
                  (Name (PostgreSQLConfig.UsernameSecret cfg))
                  (Key (PostgreSQLConfig.UsernameSecret cfg)))
               (fun err => Ret2 None (Some err)) in
    let* passwordByte :=
      orReturn (util_GetSecrets namespace
                  (Name (PostgreSQLConfig.PasswordSecret cfg))
                  (Key (PostgreSQLConfig.PasswordSecret cfg)))
               (fun err => Ret2 None (Some err)) in
    let* options :=
      if PostgreSQLConfig.SSL cfg then
        if negb (bool_decide (PostgreSQLConfig.SSLMode cfg = "")) then
          let* options := new_map {[ "sslmode" := PostgreSQLConfig.SSLMode cfg ]} in
          pure (Some options)
        else pure None
      else pure None in
    let settings :=
      {| ConnectionURL.User := userNameByte;
         ConnectionURL.Password := passwordByte;
         ConnectionURL.Host := PostgreSQLConfig.GetHostname cfg;
         ConnectionURL.Database := PostgreSQLConfig.Database cfg;
         ConnectionURL.Options := options |} in
    let* session :=
      orReturn (db_Open Postgres settings) (fun err => Ret2 None (Some err)) in
    let* session := ConfigureDBSession session persistPool in
    pure (Ret2 (Some session) None)).

(** [CreateMySQLDBSession]; [cfg] is what the pointer refers to.  The three
    [return nil, "", err] statements of the CA-certificate branch are kept
    with their three values. *)
Definition CreateMySQLDBSession (namespace : string) (cfg : MySQLConfig.t)
    (persistPool : option ConnectionPool) : State -> Ret * State :=
  run (
    (if bool_decide (MySQLConfig.TableName cfg = "")
     then return_ (Ret2 None (Some (InternalError "tableName is empty")))
     else pure tt);;
    let* userNameByte :=
      orReturn (util_GetSecrets namespace
                  (Name (MySQLConfig.UsernameSecret cfg))
                  (Key (MySQLConfig.UsernameSecret cfg)))
               (fun err => Ret2 None (Some err)) in
    let* passwordByte :=
      orReturn (util_GetSecrets namespace
                  (Name (MySQLConfig.PasswordSecret cfg))
                  (Key (MySQLConfig.PasswordSecret cfg)))
               (fun err => Ret2 None (Some err)) in
    let* options :=
      match MySQLConfig.Options cfg with
      | Some m => pure m
      | None => new_map ∅
      end in
    let settings :=
      {| ConnectionURL.User := userNameByte;
         ConnectionURL.Password := passwordByte;
         ConnectionURL.Host := MySQLConfig.GetHostname cfg;
         ConnectionURL.Database := MySQLConfig.Database cfg;
         ConnectionURL.Options := Some options |} in
    (if negb (bool_decide (MySQLConfig.CaCertSecret cfg = SecretKeySelector_zero)) then
       let* caCertByte :=
         orReturn (util_GetSecrets namespace
                     (Name (MySQLConfig.CaCertSecret cfg))
                     (Key (MySQLConfig.CaCertSecret cfg)))
                  (fun err => Ret3 None "" (Some err)) in
       let* appended := x509_AppendCertsFromPEM caCertByte in
       let rootCertPool := fst appended in
       (if negb (snd appended)
        then return_ (Ret3 None "" (Some (Errorf "failed to append PEM")))
        else pure tt);;
       orReturn (mysqldriver_RegisterTLSConfig "argo-ca-cert" rootCertPool)
                (fun err => Ret3 None "" (Some err));;
       map_store options "tls" "argo-ca-cert"
     else pure tt);;
    let* session :=
      orReturn (db_Open Mysql settings) (fun err => Ret2 None (Some err)) in
    let* session := ConfigureDBSession session persistPool in
    orReturn (Exec session "SET NAMES 'utf8mb4'") (fun err => Ret2 None (Some err));;
    orReturn (Exec session "SET CHARACTER SET utf8mb4") (fun err => Ret2 None (Some err));;
    pure (Ret2 (Some session) None)).

(** [CreateDBSession] *)
Definition CreateDBSession (namespace : string) (persistConfig : option PersistConfig.t)
  : State -> Ret * State :=
  fun st =>
    match persistConfig with
    | None => (Ret2 None (Some (InternalError "Persistence config is not found")), st)
    | Some persistConfig =>
        match PersistConfig.PostgreSQL persistConfig with
        | Some pg =>
            CreatePostGresDBSession namespace pg
              (PersistConfig.ConnectionPool persistConfig) st
        | None =>
            match PersistConfig.MySQL persistConfig with
            | Some my =>
                CreateMySQLDBSession namespace my
                  (PersistConfig.ConnectionPool persistConfig) st
            | None => (Ret2 None (Some (Errorf "no databases are configured")), st)
            end
        end
    end.

End Code.

(** ** Notions used to state the properties *)

Inductive ErrorKind := ConfigError | SecretLookupError | TLSConfigError | ConnectionError.

(** The code has one error type; the spec sorts errors into four kinds by
    what went wrong.  Read off the error values the code can return: the two
    internal errors and "no databases are configured" report a bad
    configuration, "failed to append PEM" and a registration error report a
    bad TLS setup, the secret store's errors a failed lookup, and the errors
    of [Open] and [Exec] a failed connection. *)
Definition error_kind (e : error) : ErrorKind :=
  match e with
  | InternalError _ => ConfigError
  | Errorf msg =>
      if bool_decide (msg = "failed to append PEM") then TLSConfigError else ConfigError
  | GetSecretsError _ => SecretLookupError
  | RegisterTLSConfigError _ => TLSConfigError
  | OpenError _ | ExecError _ => ConnectionError
  end.

(** The events a call appended to the trace. *)
Definition events_since (st st' : State) : list Event :=
  drop (length (trace st)) (trace st').

(** The session state after the three setters. *)
Definition with_pool (pool : ConnectionPool) (s : SessionState) : SessionState :=
  {| s_backend := s_backend s; s_descriptor := s_descriptor s;
     s_maxOpenConns := Some (MaxOpenConns pool);
     s_maxIdleConns := Some (MaxIdleConns pool);
     s_connMaxLifetime := Some (ConnMaxLifetime pool);
     s_executed := s_executed s |}.

(** The setter calls of [ConfigureDBSession], and their effect on a
    session. *)
Definition pool_events (persistPool : option ConnectionPool) : list Event :=
  match persistPool with
  | Some pool =>
      [EvSetMaxOpenConns (MaxOpenConns pool); EvSetMaxIdleConns (MaxIdleConns pool);
       EvSetConnMaxLifetime (ConnMaxLifetime pool)]
  | None => []
  end.

Definition configured (persistPool : option ConnectionPool) (s : SessionState)
  : SessionState :=
  match persistPool with
  | Some pool => with_pool pool s
  | None => s
  end.

(** The descriptor the PostgreSQL builder fills in, given the credentials. *)
Definition postgres_descriptor (cfg : PostgreSQLConfig.t) (user password : string)
  : Descriptor :=
  {| d_User := user; d_Password := password;
     d_Host := PostgreSQLConfig.GetHostname cfg;
     d_Database := PostgreSQLConfig.Database cfg;
     d_Options :=
       if PostgreSQLConfig.SSL cfg then
         if bool_decide (PostgreSQLConfig.SSLMode cfg = "") then None
         else Some {[ "sslmode" := PostgreSQLConfig.SSLMode cfg ]}
       else None |}.

(** A call that returns an error returns no session, and a call of a
    collaborator that fails is the last call made and makes the function
    return an error. *)
Definition returns_at_first_failure (st : State) (res : Ret * State) : Prop :=
  (ret_error (fst res) <> None -> ret_session (fst res) = None)
  /\ (forall pre ev post,
        events_since st (snd res) = pre ++ ev :: post ->
        ev_failed ev = true -> post = [] /\ ret_error (fst res) <> None).

(** Calling [f] a second time, in the store the first call left, goes the
    same way: the same calls to the collaborators with the same arguments
    (so the same descriptor given to [Open], the same pool settings, the same
    statements), the same error if any; when sessions are returned they are
    two different sessions in the same state, the second call leaves the
    first session as it was; and the second call leaves the TLS registry as
    the first call left it. *)
Definition repeatable (f : State -> Ret * State) (st : State) : Prop :=
  let res1 := f st in
  let res2 := f (snd res1) in
  events_since (snd res1) (snd res2) = events_since st (snd res1)
  /\ ret_error (fst res2) = ret_error (fst res1)
  /\ well_formed_return (fst res2) = well_formed_return (fst res1)
  /\ match ret_session (fst res1), ret_session (fst res2) with
     | Some h1, Some h2 =>
         h1 <> h2
         /\ is_Some (sessions (snd res1) !! h1)
         /\ sessions (snd res2) !! h2 = sessions (snd res1) !! h1
         /\ sessions (snd res2) !! h1 = sessions (snd res1) !! h1
     | None, None => True
     | _, _ => False
     end
  /\ tlsConfigRegistry (snd res2) = tlsConfigRegistry (snd res1).

(** A call shares no mutable state with a later call: what outlives the call
    and a later call can see, the TLS registry and the maps that existed
    before, is as it was. *)
Definition shares_no_state (f : State -> Ret * State) (st : State) : Prop :=
  tlsConfigRegistry (snd (f st)) = tlsConfigRegistry st
  /\ forall l, is_Some (maps st !! l) -> maps (snd (f st)) !! l = maps st !! l.

(** ** A concrete environment *)

(** A secret store with the credentials under [db-creds], a CA certificate
    under [db-ca] and something that is no certificate under [bad-ca]; a
    database client whose calls all succeed. *)
Definition demo_secrets (namespace name key : string) : outcome string :=
  if bool_decide (namespace = "argo") then
    if bool_decide (name = "db-creds") then
      if bool_decide (key = "username") then Success "argo"
      else if bool_decide (key = "password") then Success "s3cret"
      else Failure "key not found"
    else if bool_decide (name = "db-ca") then Success "-----BEGIN CERTIFICATE-----"
    else if bool_decide (name = "bad-ca") then Success "not a certificate"
    else Failure "secret not found"
  else Failure "secret not found".

Definition demo_env : Env :=
  {| GetSecrets := demo_secrets;
     pemCerts := fun pem =>
       if bool_decide (pem = "-----BEGIN CERTIFICATE-----") then ["ca"] else [];
     RegisterTLSConfig_err := fun _ => None;
     Open_err := fun _ _ => None;
     Exec_err := fun _ _ => None |}.

Definition secret (name key : string) : SecretKeySelector :=
  {| Name := name; Key := key; Optional := None |}.

Definition demo_postgres (user : SecretKeySelector) (sslMode : string)
  : PostgreSQLConfig.t :=
  {| PostgreSQLConfig.GetHostname := "postgres:5432";
     PostgreSQLConfig.Database := "argo";
     PostgreSQLConfig.TableName := "argo_workflows";
     PostgreSQLConfig.UsernameSecret := user;
     PostgreSQLConfig.PasswordSecret := secret "db-creds" "password";
     PostgreSQLConfig.SSL := true;
     PostgreSQLConfig.SSLMode := sslMode |}.

Definition demo_mysql (table : string) (user password caCert : SecretKeySelector)
  : MySQLConfig.t :=
  {| MySQLConfig.GetHostname := "mysql:3306";
     MySQLConfig.Database := "argo";
     MySQLConfig.TableName := table;
     MySQLConfig.UsernameSecret := user;
     MySQLConfig.PasswordSecret := password;
     MySQLConfig.Options := Some 1%positive;
     MySQLConfig.CaCertSecret := caCert |}.

Definition demo_pool : ConnectionPool :=
  {| MaxIdleConns := 2; MaxOpenConns := 5; ConnMaxLifetime := 3600 |}.

(** A store in which the MySQL configuration's options map, at address 1,
    holds one driver option. *)
Definition demo_state : State :=
  {| maps := {[ 1%positive := {[ "parseTime" := "true" ]} ]};
     tlsConfigRegistry := ∅; sessions := ∅; trace := [] |}.

(** The MySQL configuration with a CA certificate, as a persistence
    configuration. *)
Definition demo_config : PersistConfig.t :=
  {| PersistConfig.PostgreSQL := None;
     PersistConfig.MySQL :=
       Some (demo_mysql "argo_workflows" (secret "db-creds" "username")
               (secret "db-creds" "password") (secret "db-ca" "ca.pem"));
     PersistConfig.ConnectionPool := Some demo_pool |}.

(** ** Notions used by the further properties *)

(** The secrets a call asked the store for, in order: namespace, name and
    key of each lookup. *)
Definition secret_reads (evs : list Event) : list (string * string * string) :=
  omap (fun ev => match ev with
                  | EvGetSecrets namespace name key _ => Some (namespace, name, key)
                  | _ => None
                  end) evs.

(** The contents of the options map a MySQL configuration refers to (nothing
    for a nil map). *)
Definition config_options (st : State) (cfg : MySQLConfig.t) : gmap string string :=
  match MySQLConfig.Options cfg with
  | Some l => map_at st l
  | None => ∅
  end.

(** A persistence configuration that [CreateDBSession] rejects before it
    calls anything: nil, no backend, or MySQL alone with an empty table
    name. *)
Definition rejected_outright (persistConfig : option PersistConfig.t) : Prop :=
  match persistConfig with
  | None => True
  | Some pc =>
      PersistConfig.PostgreSQL pc = None
      /\ match PersistConfig.MySQL pc with
         | None => True
         | Some my => MySQLConfig.TableName my = ""
         end
  end.

(** The environment [demo_env] with a database on which the second charset
    statement fails. *)
Definition demo_env_exec_fails : Env :=
  {| GetSecrets := demo_secrets;
     pemCerts := pemCerts demo_env;
     RegisterTLSConfig_err := fun _ => None;
     Open_err := fun _ _ => None;
     Exec_err := fun _ stmt =>
       if bool_decide (stmt = "SET CHARACTER SET utf8mb4")
       then Some "unknown character set" else None |}.

(** The environment [demo_env] with a driver that refuses the
    registration. *)
Definition demo_env_register_fails : Env :=
  {| GetSecrets := demo_secrets;
     pemCerts := pemCerts demo_env;
     RegisterTLSConfig_err := fun _ => Some "registration refused";
     Open_err := fun _ _ => None;
     Exec_err := fun _ _ => None |}.

(** A session opened earlier, and a store that holds it at handle 7. *)
Definition demo_session : SessionState :=
  {| s_backend := Postgres;
     s_descriptor := {| d_User := "u"; d_Password := "p"; d_Host := "h";
                        d_Database := "d"; d_Options := None |};
     s_maxOpenConns := Some 3; s_maxIdleConns := None;
     s_connMaxLifetime := None; s_executed := ["SELECT 1"] |}.

Definition demo_state_with_session : State :=
  {| maps := maps demo_state; tlsConfigRegistry := {[ "other-ca" := ["x"] ]};
     sessions := {[ 7%positive := demo_session ]}; trace := [] |}.

(** The MySQL demo configuration with a given CA-certificate selector. *)
Definition demo_mysql_ca (caCert : SecretKeySelector) : MySQLConfig.t :=
  demo_mysql "argo_workflows" (secret "db-creds" "username")
    (secret "db-creds" "password") caCert.

(** A call returns a session or an error, never both and never neither; a
    returned session is a new one, and it is open. *)
Definition session_xor_error (st : State) (res : Ret * State) : Prop :=
  (ret_session (fst res) = None <-> ret_error (fst res) <> None)
  /\ forall h, ret_session (fst res) = Some h ->
       sessions st !! h = None /\ is_Some (sessions (snd res) !! h).

(** The calls the PostgreSQL builder may make. *)
Definition postgres_call (ev : Event) : bool :=
  match ev with
  | EvGetSecrets _ _ _ _ | EvOpen Postgres _ _
  | EvSetMaxOpenConns _ | EvSetMaxIdleConns _ | EvSetConnMaxLifetime _ => true
  | _ => false
  end.

(** A call registers TLS configurations under the name "argo-ca-cert" only,
    leaves every other entry of the registry alone, and leaves the whole
    registry alone unless a registration succeeded. *)
Definition registry_frame (st : State) (res : Ret * State) : Prop :=
  (forall key ok,
     EvRegisterTLSConfig key ok ∈ events_since st (snd res) -> key = "argo-ca-cert")
  /\ (forall key, key <> "argo-ca-cert" ->
        tlsConfigRegistry (snd res) !! key = tlsConfigRegistry st !! key)
  /\ ((forall key, EvRegisterTLSConfig key true ∉ events_since st (snd res)) ->
      tlsConfigRegistry (snd res) = tlsConfigRegistry st).

(** ** Proof support *)

Lemma events_since_app st st' evs :
  trace st' = trace st ++ evs -> events_since st st' = evs.
Proof. unfold events_since. intros ->. by rewrite drop_app_length. Qed.

Lemma alter_setters (pool : ConnectionPool) (session : Session)
    (m : gmap Session SessionState) :
  alter (with_connMaxLifetime (ConnMaxLifetime pool)) session
    (alter (with_maxIdleConns (MaxIdleConns pool)) session
       (alter (with_maxOpenConns (MaxOpenConns pool)) session m))
  = alter (with_pool pool) session m.
Proof.
  apply map_eq; intros h. destruct (decide (session = h)) as [<-|Hne].
  - rewrite !lookup_alter_eq. destruct (m !! session) as [s|]; reflexivity.
  - by rewrite !lookup_alter_ne.
Qed.

Lemma alter_configured_None (session : Session) (m : gmap Session SessionState) :
  alter (configured None) session m = m.
Proof.
  apply map_eq; intros h. destruct (decide (session = h)) as [<-|Hne].
  - rewrite lookup_alter_eq. by destruct (m !! session).
  - by rewrite lookup_alter_ne.
Qed.

(** What [ConfigureDBSession] does, as one equation. *)
Lemma ConfigureDBSession_eq (session : Session) (persistPool : option ConnectionPool)
    (st : State) :
  ConfigureDBSession session persistPool st
  = (Next session,
     {| maps := maps st; tlsConfigRegistry := tlsConfigRegistry st;
        sessions := alter (configured persistPool) session (sessions st);
        trace := trace st ++ pool_events persistPool |}).
Proof.
  destruct persistPool as [pool|]; unfold ConfigureDBSession, bind, pure,
    SetMaxOpenConns, SetMaxIdleConns, SetConnMaxLifetime, emit, set_sessions; simpl.
  - rewrite alter_setters, <- !app_assoc. reflexivity.
  - rewrite app_nil_r, alter_configured_None. by destruct st.
Qed.

(** A new handle differs from every handle in use. *)
Lemma fresh_ne_lookup (m : gmap positive SessionState) (h : positive) :
  is_Some (m !! h) -> fresh (dom m) <> h.
Proof.
  intros Hsome Heq. apply elem_of_dom in Hsome. rewrite <- Heq in Hsome.
  by apply is_fresh in Hsome.
Qed.

(** *** Symbolic execution of the builders *)

(** Unfold the code and the store operations down to record literals. *)
Ltac eval_code :=
  cbv beta iota zeta delta
    [CreateDBSession CreatePostGresDBSession CreateMySQLDBSession
     run bind pure return_ orReturn util_GetSecrets new_map map_store
     x509_AppendCertsFromPEM mysqldriver_RegisterTLSConfig db_Open
     SetMaxOpenConns SetMaxIdleConns SetConnMaxLifetime Exec fst snd negb
     maps tlsConfigRegistry sessions trace emit set_maps set_registry set_sessions
     map_at read_settings ConnectionURL.User ConnectionURL.Password ConnectionURL.Host
     ConnectionURL.Database ConnectionURL.Options
     pool_events configured with_pool with_executed
     s_backend s_descriptor s_maxOpenConns s_maxIdleConns s_connMaxLifetime s_executed
     fmap option_fmap option_map from_option id].

(** One step: simplify a lookup in the store, or reuse what is known about
    the scrutinee of a blocked [match], or split on the answer of a
    collaborator or on a test of the configuration. *)
Ltac code_step :=
  lazymatch goal with
  | |- context [ConfigureDBSession ?h ?p ?s] => rewrite (ConfigureDBSession_eq h p s)
  | |- context [<[?i := ?x]> ?m !! ?i] => rewrite (lookup_insert_eq m i x)
  | |- context [alter ?f ?i ?m !! ?i] => rewrite (lookup_alter_eq f m i)
  | |- context [<[?i := ?x]> (<[?i := ?y]> ?m)] => rewrite (insert_insert_eq m i x y)
  | H : ?x = _ |- context [match ?x with _ => _ end] => rewrite H
  | H : ?P |- context [bool_decide ?P] => rewrite (bool_decide_eq_true_2 P H)
  | H : ~ ?P |- context [bool_decide ?P] => rewrite (bool_decide_eq_false_2 P H)
  | |- context [bool_decide ?P] => destruct (bool_decide_reflect P)
  | |- context [match GetSecrets ?E ?a ?b ?c with _ => _ end] =>
      destruct (GetSecrets E a b c) eqn:?
  | |- context [match pemCerts ?E ?a with _ => _ end] => destruct (pemCerts E a) eqn:?
  | |- context [match RegisterTLSConfig_err ?E ?a with _ => _ end] =>
      destruct (RegisterTLSConfig_err E a) eqn:?
  | |- context [match Open_err ?E ?a ?b with _ => _ end] =>
      destruct (Open_err E a b) eqn:?
  | |- context [match Exec_err ?E ?a ?b with _ => _ end] =>
      destruct (Exec_err E a b) eqn:?
  | |- context [match MySQLConfig.Options ?c with _ => _ end] =>
      destruct (MySQLConfig.Options c) eqn:?
  | |- context [if PostgreSQLConfig.SSL ?c then _ else _] =>
      destruct (PostgreSQLConfig.SSL c) eqn:?
  end;
  eval_code.

Ltac run_code := eval_code; repeat code_step.

(** Run a builder once: from [f st = (r, st') -> G], one goal per path, with
    [r] and [st'] replaced in [G] by what the path returns. *)
Ltac run_paths := run_code; intros [<- <-]%pair_equal_spec.

(** Read [events_since] off a trace that extends the initial one. *)
Ltac norm_events :=
  unfold events_since; cbn [trace];
  rewrite <- ?app_assoc; rewrite ?length_app; cbn [length app];
  rewrite ?drop_app_add, ?drop_app_length, ?drop_all; cbn [drop].

(** Enumerate the ways an explicit list splits as [pre ++ ev :: post]. *)
Ltac invert_split H pre :=
  destruct pre as [|? pre]; simpl in H;
  [ first [ discriminate H | injection H as ? ?; subst ]
  | first [ discriminate H
          | let H' := fresh "Hsplit" in
            injection H as ? H'; subst; invert_split H' pre ] ].

(** Lookups in a store built by insertions and alterations. *)
Ltac simpl_lookups :=
  repeat match goal with
    | |- context [<[?i := ?x]> ?m !! ?i] => rewrite (lookup_insert_eq m i x)
    | |- context [alter ?f ?i ?m !! ?i] => rewrite (lookup_alter_eq f m i)
    | |- context [<[?i := ?x]> (<[?i := ?y]> ?m)] => rewrite (insert_insert_eq m i x y)
    | Hne : ?i <> ?j |- context [<[?i := ?x]> ?m !! ?j] =>
        rewrite (lookup_insert_ne m i j x Hne)
    | Hne : ?i <> ?j |- context [alter ?f ?i ?m !! ?j] =>
        rewrite (lookup_alter_ne f m i j Hne)
    end;
  eval_code.

(** The handle of a session opened later differs from the first one's. *)
Ltac fresh_handles ss :=
  match goal with
  | |- context [fresh (dom ?M)] =>
      lazymatch M with
      | ss => fail
      | _ => assert (fresh (dom M) <> fresh (dom ss))
               by (apply fresh_ne_lookup; simpl_lookups; first [done | eauto])
      end
  end.

Ltac solve_first_failure :=
  let pre := fresh "pre" in
  let Hsplit := fresh "Hsplit" in
  let Hfail := fresh "Hfail" in
  (split; [ cbn; congruence | intros pre ? ? Hsplit Hfail ]);
  invert_split Hsplit pre; try discriminate Hfail;
  (split; [ reflexivity | cbn; congruence ]).

Ltac solve_repeatable ss :=
  repeat split; try reflexivity;
  try (try fresh_handles ss;
       first [ congruence | simpl_lookups; first [done | eauto] ]).

(** *** The builders, path by path *)

Lemma CreatePostGresDBSession_first_failure E ns cfg pool st :
  returns_at_first_failure st (CreatePostGresDBSession E ns cfg pool st).
Proof.
  unfold returns_at_first_failure.
  destruct (CreatePostGresDBSession E ns cfg pool st) as [r st'] eqn:Hrun.
  cbn [fst snd]. revert Hrun. destruct st as [hm reg ss tr], pool as [pool|].
  all: run_paths; norm_events; solve_first_failure.
Qed.

Lemma CreateMySQLDBSession_first_failure E ns cfg pool st :
  returns_at_first_failure st (CreateMySQLDBSession E ns cfg pool st).
Proof.
  unfold returns_at_first_failure.
  destruct (CreateMySQLDBSession E ns cfg pool st) as [r st'] eqn:Hrun.
  cbn [fst snd]. revert Hrun. destruct st as [hm reg ss tr], pool as [pool|].
  all: run_paths; norm_events; solve_first_failure.
Qed.

Lemma CreatePostGresDBSession_repeatable E ns cfg pool st :
  repeatable (CreatePostGresDBSession E ns cfg pool) st.
Proof.
  unfold repeatable. cbv zeta.
  set (f := CreatePostGresDBSession E ns cfg pool).
  destruct (f st) as [r1 st1] eqn:H1. cbn [fst snd].
  destruct (f st1) as [r2 st2] eqn:H2. cbn [fst snd].
  revert H2. unfold f in H1. revert H1.
  destruct st as [hm reg ss tr], pool as [pool|].
  all: run_paths; unfold f; clear f; run_paths.
  all: norm_events; solve_repeatable ss.
Qed.

Lemma CreateMySQLDBSession_repeatable E ns cfg pool st :
  repeatable (CreateMySQLDBSession E ns cfg pool) st.
Proof.
  unfold repeatable. cbv zeta.
  set (f := CreateMySQLDBSession E ns cfg pool).
  destruct (f st) as [r1 st1] eqn:H1. cbn [fst snd].
  destruct (f st1) as [r2 st2] eqn:H2. cbn [fst snd].
  revert H2. unfold f in H1. revert H1.
  destruct st as [hm reg ss tr], pool as [pool|].
  all: run_paths; unfold f; clear f; run_paths.
  all: norm_events; solve_repeatable ss.
Qed.

(** Every [Open] of the PostgreSQL builder is on the PostgreSQL client, with
    the descriptor filled from the configuration. *)
Lemma CreatePostGresDBSession_opens E ns cfg pool st b d ok :
  EvOpen b d ok ∈ events_since st (snd (CreatePostGresDBSession E ns cfg pool st)) ->
  exists user password, b = Postgres /\ d = postgres_descriptor cfg user password.
Proof.
  destruct (CreatePostGresDBSession E ns cfg pool st) as [r st'] eqn:Hrun.
  cbn [fst snd]. revert Hrun. unfold postgres_descriptor.
  destruct st as [hm reg ss tr], pool as [pool|].
  all: run_paths; norm_events.
  all: rewrite ?elem_of_cons, elem_of_nil; intros Hin.
  all: repeat (destruct Hin as [Hin|Hin]; [try discriminate Hin |]); try done.
  all: injection Hin as -> -> ->; eauto.
Qed.

(** ** Dispatch and configuration errors *)

(** C1: with neither the PostgreSQL nor the MySQL backend configured,
    [CreateDBSession] returns no session and the error "no databases are
    configured", a [ConfigError]; it calls no collaborator and leaves the
    store as it was. *)
Theorem CreateDBSession_no_backend (E : Env) (namespace : string)
    (pool : option ConnectionPool) (st : State) :
  CreateDBSession E namespace
    (Some {| PersistConfig.PostgreSQL := None; PersistConfig.MySQL := None;
             PersistConfig.ConnectionPool := pool |}) st
  = (Ret2 None (Some (Errorf "no databases are configured")), st)
  /\ error_kind (Errorf "no databases are configured") = ConfigError.
Proof. split; reflexivity. Qed.

(** C2: a MySQL configuration with an empty table name makes
    [CreateMySQLDBSession], and [CreateDBSession] when it dispatches to it,
    return no session and the internal error "tableName is empty", a
    [ConfigError]; the store is returned as it was, so the call has made no
    secret lookup (and no other call). *)
Theorem CreateMySQLDBSession_empty_table_name (E : Env) (namespace : string)
    (cfg : MySQLConfig.t) (pool : option ConnectionPool) (st : State) :
  MySQLConfig.TableName cfg = "" ->
  CreateMySQLDBSession E namespace cfg pool st
    = (Ret2 None (Some (InternalError "tableName is empty")), st)
  /\ CreateDBSession E namespace
       (Some {| PersistConfig.PostgreSQL := None; PersistConfig.MySQL := Some cfg;
                PersistConfig.ConnectionPool := pool |}) st
    = (Ret2 None (Some (InternalError "tableName is empty")), st)
  /\ events_since st (snd (CreateMySQLDBSession E namespace cfg pool st)) = []
  /\ error_kind (InternalError "tableName is empty") = ConfigError.
Proof.
  intros Hname.
  assert (Hrun : CreateMySQLDBSession E namespace cfg pool st
                 = (Ret2 None (Some (InternalError "tableName is empty")), st)).
  { unfold CreateMySQLDBSession, run, bind, return_.
    rewrite bool_decide_eq_true_2 by exact Hname. reflexivity. }
  repeat split; try exact Hrun.
  rewrite Hrun. apply events_since_app. simpl. by rewrite app_nil_r.
Qed.

Lemma CreateMySQLDBSession_empty_table_name_witness :
  let cfg := demo_mysql "" (secret "db-creds" "username")
               (secret "db-creds" "password") SecretKeySelector_zero in
  CreateMySQLDBSession demo_env "argo" cfg (Some demo_pool) demo_state
    = (Ret2 None (Some (InternalError "tableName is empty")), demo_state)
  /\ CreateDBSession demo_env "argo"
       (Some {| PersistConfig.PostgreSQL := None; PersistConfig.MySQL := Some cfg;
                PersistConfig.ConnectionPool := Some demo_pool |}) demo_state
    = (Ret2 None (Some (InternalError "tableName is empty")), demo_state)
  /\ events_since demo_state
       (snd (CreateMySQLDBSession demo_env "argo" cfg (Some demo_pool) demo_state)) = []
  /\ error_kind (InternalError "tableName is empty") = ConfigError.
Proof.
  exact (CreateMySQLDBSession_empty_table_name demo_env "argo"
           (demo_mysql "" (secret "db-creds" "username")
              (secret "db-creds" "password") SecretKeySelector_zero)
           (Some demo_pool) demo_state eq_refl).
Defined.

(** C10: when both backends are configured, [CreateDBSession] is the
    PostgreSQL builder on the PostgreSQL configuration, whatever the MySQL
    configuration holds, and [GetTableName] reads the PostgreSQL table name;
    [GetTableName] returns an error exactly when the table name it selected
    (PostgreSQL's if set, else MySQL's if set, else the empty string) is
    empty, and the selected name otherwise. *)
Theorem both_backends_select_postgres (E : Env) (namespace : string)
    (pg : PostgreSQLConfig.t) (my : MySQLConfig.t) (my' : option MySQLConfig.t)
    (pool : option ConnectionPool) (st : State) :
  let both := {| PersistConfig.PostgreSQL := Some pg; PersistConfig.MySQL := Some my;
                 PersistConfig.ConnectionPool := pool |} in
  let pg_set := {| PersistConfig.PostgreSQL := Some pg; PersistConfig.MySQL := my';
                   PersistConfig.ConnectionPool := pool |} in
  let my_only := {| PersistConfig.PostgreSQL := None; PersistConfig.MySQL := Some my;
                    PersistConfig.ConnectionPool := pool |} in
  let neither := {| PersistConfig.PostgreSQL := None; PersistConfig.MySQL := None;
                    PersistConfig.ConnectionPool := pool |} in
  CreateDBSession E namespace (Some both) st
    = CreatePostGresDBSession E namespace pg pool st
  /\ CreateDBSession E namespace (Some both) st
    = CreateDBSession E namespace (Some pg_set) st
  /\ GetTableName both = GetTableName pg_set
  /\ GetTableName pg_set
    = (if bool_decide (PostgreSQLConfig.TableName pg = "")
       then ("", Some (InternalError "TableName is empty"))
       else (PostgreSQLConfig.TableName pg, None))
  /\ GetTableName my_only
    = (if bool_decide (MySQLConfig.TableName my = "")
       then ("", Some (InternalError "TableName is empty"))
       else (MySQLConfig.TableName my, None))
  /\ GetTableName neither = ("", Some (InternalError "TableName is empty"))
  /\ (snd (GetTableName pg_set) <> None <-> PostgreSQLConfig.TableName pg = "")
  /\ (snd (GetTableName my_only) <> None <-> MySQLConfig.TableName my = "").
Proof.
  cbv zeta. repeat split; try reflexivity.
  - unfold GetTableName; simpl. case_bool_decide; [done | simpl; congruence].
  - unfold GetTableName; simpl. intros ->. by rewrite bool_decide_eq_true_2.
  - unfold GetTableName; simpl. case_bool_decide; [done | simpl; congruence].
  - unfold GetTableName; simpl. intros ->. by rewrite bool_decide_eq_true_2.
Qed.

(** ** Pool configuration *)

(** C6: [ConfigureDBSession] returns the session it was given and never
    returns early or with an error.  With no pool configuration the store is
    untouched.  With one, it calls exactly the three setters, in order, with
    the configured values: the session afterwards has these three limits and
    is otherwise as before, and nothing else in the store changes. *)
Theorem ConfigureDBSession_spec (session : Session) (st : State) :
  ConfigureDBSession session None st = (Next session, st)
  /\ forall pool : ConnectionPool,
       exists st',
         ConfigureDBSession session (Some pool) st = (Next session, st')
         /\ events_since st st'
            = [EvSetMaxOpenConns (MaxOpenConns pool);
               EvSetMaxIdleConns (MaxIdleConns pool);
               EvSetConnMaxLifetime (ConnMaxLifetime pool)]
         /\ sessions st' !! session
            = (fun s => {| s_backend := s_backend s; s_descriptor := s_descriptor s;
                           s_maxOpenConns := Some (MaxOpenConns pool);
                           s_maxIdleConns := Some (MaxIdleConns pool);
                           s_connMaxLifetime := Some (ConnMaxLifetime pool);
                           s_executed := s_executed s |}) <$> sessions st !! session
         /\ (forall other, other <> session ->
               sessions st' !! other = sessions st !! other)
         /\ maps st' = maps st
         /\ tlsConfigRegistry st' = tlsConfigRegistry st.
Proof.
  split.
  - rewrite ConfigureDBSession_eq. simpl.
    rewrite app_nil_r, alter_configured_None. by destruct st.
  - intros pool. eexists. split; [apply ConfigureDBSession_eq |].
    repeat split.
    + by apply events_since_app.
    + simpl. by rewrite lookup_alter_eq.
    + intros other Hne. simpl. by rewrite lookup_alter_ne.
Qed.

(** The spec's example for [ConfigureDBSession]: a pool configuration with
    [MaxOpenConns = 5] leaves an open session with that limit. *)
Example ConfigureDBSession_max_open_5 :
  let s := {| s_backend := Postgres;
              s_descriptor := {| d_User := "u"; d_Password := "p"; d_Host := "h";
                                 d_Database := "d"; d_Options := None |};
              s_maxOpenConns := None; s_maxIdleConns := None;
              s_connMaxLifetime := None; s_executed := [] |} in
  let st := {| maps := ∅; tlsConfigRegistry := ∅; sessions := {[ 1%positive := s ]};
               trace := [] |} in
  (s_maxOpenConns <$>
     sessions (snd (ConfigureDBSession 1%positive (Some demo_pool) st)) !! 1%positive)
  = Some (Some 5).
Proof. vm_compute. reflexivity. Qed.

(** ** Secret lookups *)

(** C3: in both builders, a failing lookup of the username makes the builder
    return no session and the secret store's error, a [SecretLookupError],
    having made that one call only (no password lookup, no [Open]); a failing
    lookup of the password, after the username was found, makes it return no
    session and the store's error after these two calls only (no [Open]).
    For MySQL the lookups take place when the table name is not empty. *)
Theorem secret_lookup_failure (E : Env) (namespace : string)
    (pool : option ConnectionPool) (st : State) :
  (forall (cfg : PostgreSQLConfig.t) msg,
     let u := PostgreSQLConfig.UsernameSecret cfg in
     GetSecrets E namespace (Name u) (Key u) = Failure msg ->
     CreatePostGresDBSession E namespace cfg pool st
     = (Ret2 None (Some (GetSecretsError msg)),
        emit (EvGetSecrets namespace (Name u) (Key u) false) st))
  /\ (forall (cfg : PostgreSQLConfig.t) user msg,
     let u := PostgreSQLConfig.UsernameSecret cfg in
     let p := PostgreSQLConfig.PasswordSecret cfg in
     GetSecrets E namespace (Name u) (Key u) = Success user ->
     GetSecrets E namespace (Name p) (Key p) = Failure msg ->
     CreatePostGresDBSession E namespace cfg pool st
     = (Ret2 None (Some (GetSecretsError msg)),
        emit (EvGetSecrets namespace (Name p) (Key p) false)
          (emit (EvGetSecrets namespace (Name u) (Key u) true) st)))
  /\ (forall (cfg : MySQLConfig.t) msg,
     let u := MySQLConfig.UsernameSecret cfg in
     MySQLConfig.TableName cfg <> "" ->
     GetSecrets E namespace (Name u) (Key u) = Failure msg ->
     CreateMySQLDBSession E namespace cfg pool st
     = (Ret2 None (Some (GetSecretsError msg)),
        emit (EvGetSecrets namespace (Name u) (Key u) false) st))
  /\ (forall (cfg : MySQLConfig.t) user msg,
     let u := MySQLConfig.UsernameSecret cfg in
     let p := MySQLConfig.PasswordSecret cfg in
     MySQLConfig.TableName cfg <> "" ->
     GetSecrets E namespace (Name u) (Key u) = Success user ->
     GetSecrets E namespace (Name p) (Key p) = Failure msg ->
     CreateMySQLDBSession E namespace cfg pool st
     = (Ret2 None (Some (GetSecretsError msg)),
        emit (EvGetSecrets namespace (Name p) (Key p) false)
          (emit (EvGetSecrets namespace (Name u) (Key u) true) st)))
  /\ (forall msg, error_kind (GetSecretsError msg) = SecretLookupError).
Proof.
  cbv zeta. repeat split; intros;
    unfold CreatePostGresDBSession, CreateMySQLDBSession, run, bind, pure, return_,
      orReturn, util_GetSecrets.
  - rewrite H. reflexivity.
  - rewrite H, H0. reflexivity.
  - rewrite bool_decide_eq_false_2 by assumption. rewrite H0. reflexivity.
  - rewrite bool_decide_eq_false_2 by assumption. rewrite H0, H1. reflexivity.
Qed.

Lemma secret_lookup_failure_witness :
  CreatePostGresDBSession demo_env "argo"
    (demo_postgres (secret "no-such-secret" "username") "require")
    (Some demo_pool) demo_state
  = (Ret2 None (Some (GetSecretsError "secret not found")),
     emit (EvGetSecrets "argo" "no-such-secret" "username" false) demo_state)
  /\ CreateMySQLDBSession demo_env "argo"
       (demo_mysql "argo_workflows" (secret "db-creds" "username")
          (secret "db-creds" "passwd") SecretKeySelector_zero)
       (Some demo_pool) demo_state
     = (Ret2 None (Some (GetSecretsError "key not found")),
        emit (EvGetSecrets "argo" "db-creds" "passwd" false)
          (emit (EvGetSecrets "argo" "db-creds" "username" true) demo_state)).
Proof.
  split.
  - exact (proj1 (secret_lookup_failure demo_env "argo" (Some demo_pool) demo_state)
             (demo_postgres (secret "no-such-secret" "username") "require")
             "secret not found" eq_refl).
  - refine (proj1 (proj2 (proj2 (proj2
              (secret_lookup_failure demo_env "argo" (Some demo_pool) demo_state))))
             (demo_mysql "argo_workflows" (secret "db-creds" "username")
                (secret "db-creds" "passwd") SecretKeySelector_zero)
             "argo" "key not found" _ eq_refl eq_refl).
    discriminate.
Defined.

(** ** TLS configuration *)

(** C4, what the code does: for a MySQL configuration with a CA-certificate
    secret whose bytes hold no PEM certificate, [CreateMySQLDBSession] stops
    before [Open]: it opens no session and the error it hands back is "failed
    to append PEM", a [TLSConfigError].  But the [return] statement lists
    three values, [nil, "", err], in a function declared to return two. *)
Theorem bad_pem_return (E : Env) (namespace : string) (cfg : MySQLConfig.t)
    (pool : option ConnectionPool) (st : State) (user password caCert : string) :
  MySQLConfig.TableName cfg <> "" ->
  MySQLConfig.CaCertSecret cfg <> SecretKeySelector_zero ->
  GetSecrets E namespace (Name (MySQLConfig.UsernameSecret cfg))
    (Key (MySQLConfig.UsernameSecret cfg)) = Success user ->
  GetSecrets E namespace (Name (MySQLConfig.PasswordSecret cfg))
    (Key (MySQLConfig.PasswordSecret cfg)) = Success password ->
  GetSecrets E namespace (Name (MySQLConfig.CaCertSecret cfg))
    (Key (MySQLConfig.CaCertSecret cfg)) = Success caCert ->
  pemCerts E caCert = [] ->
  let res := CreateMySQLDBSession E namespace cfg pool st in
  fst res = Ret3 None "" (Some (Errorf "failed to append PEM"))
  /\ well_formed_return (fst res) = false
  /\ error_kind (Errorf "failed to append PEM") = TLSConfigError
  /\ (forall b d ok, EvOpen b d ok ∉ events_since st (snd res))
  /\ sessions (snd res) = sessions st.
Proof.
  intros Htable Hca Huser Hpassword Hcert Hpem res. subst res.
  destruct (CreateMySQLDBSession E namespace cfg pool st) as [r st'] eqn:Hrun.
  cbn [fst snd]. revert Hrun. destruct st as [hm reg ss tr].
  run_paths; norm_events.
  all: repeat split; try reflexivity.
  all: intros b d ok; rewrite !elem_of_cons, elem_of_nil; intros Hin.
  all: repeat (destruct Hin as [Hin|Hin]; [discriminate Hin |]); done.
Qed.

Lemma bad_pem_return_witness :
  let cfg := demo_mysql "argo_workflows" (secret "db-creds" "username")
               (secret "db-creds" "password") (secret "bad-ca" "ca.pem") in
  let res := CreateMySQLDBSession demo_env "argo" cfg (Some demo_pool) demo_state in
  fst res = Ret3 None "" (Some (Errorf "failed to append PEM"))
  /\ well_formed_return (fst res) = false
  /\ error_kind (Errorf "failed to append PEM") = TLSConfigError
  /\ (forall b d ok, EvOpen b d ok ∉ events_since demo_state (snd res))
  /\ sessions (snd res) = sessions demo_state.
Proof.
  refine (bad_pem_return demo_env "argo"
            (demo_mysql "argo_workflows" (secret "db-creds" "username")
               (secret "db-creds" "password") (secret "bad-ca" "ca.pem"))
            (Some demo_pool) demo_state "argo" "s3cret" "not a certificate"
            _ _ eq_refl eq_refl eq_refl eq_refl); discriminate.
Defined.

(** ** The PostgreSQL descriptor *)

(** C5: for a PostgreSQL configuration with SSL enabled, every descriptor the
    builder passes to [Open] has, when [SSLMode] is "require", an options map
    that is exactly [sslmode = require], and, when [SSLMode] is empty, no
    options map; and [Open] is called, with the credentials, host and
    database of the configuration, whenever both secret lookups succeed. *)
Theorem postgres_sslmode_option (E : Env) (namespace : string)
    (cfg : PostgreSQLConfig.t) (pool : option ConnectionPool) (st : State) :
  PostgreSQLConfig.SSL cfg = true ->
  let st' := snd (CreatePostGresDBSession E namespace cfg pool st) in
  (PostgreSQLConfig.SSLMode cfg = "require" ->
     forall b d ok, EvOpen b d ok ∈ events_since st st' ->
       exists options,
         d_Options d = Some options
         /\ options !! "sslmode" = Some "require"
         /\ options = {[ "sslmode" := "require" ]})
  /\ (PostgreSQLConfig.SSLMode cfg = "" ->
     forall b d ok, EvOpen b d ok ∈ events_since st st' -> d_Options d = None)
  /\ (forall user password,
       GetSecrets E namespace (Name (PostgreSQLConfig.UsernameSecret cfg))
         (Key (PostgreSQLConfig.UsernameSecret cfg)) = Success user ->
       GetSecrets E namespace (Name (PostgreSQLConfig.PasswordSecret cfg))
         (Key (PostgreSQLConfig.PasswordSecret cfg)) = Success password ->
       exists d ok,
         EvOpen Postgres d ok ∈ events_since st st'
         /\ d_User d = user /\ d_Password d = password
         /\ d_Host d = PostgreSQLConfig.GetHostname cfg
         /\ d_Database d = PostgreSQLConfig.Database cfg).
Proof.
  intros Hssl st'. subst st'. split; [| split].
  - intros Hmode b d ok Hin.
    apply CreatePostGresDBSession_opens in Hin as (user & password & _ & ->).
    unfold postgres_descriptor; cbn [d_Options]. rewrite Hssl, Hmode.
    eexists; split; [reflexivity | split; [| reflexivity]].
    apply lookup_singleton_eq.
  - intros Hmode b d ok Hin.
    apply CreatePostGresDBSession_opens in Hin as (user & password & _ & ->).
    unfold postgres_descriptor; cbn [d_Options]. by rewrite Hssl, Hmode.
  - intros user password Huser Hpassword.
    destruct (CreatePostGresDBSession E namespace cfg pool st) as [r st'] eqn:Hrun.
    cbn [fst snd]. revert Hrun. destruct st as [hm reg ss tr].
    run_paths; norm_events.
    all: eexists _, _; rewrite !elem_of_cons; split; [eauto |]; done.
Qed.

Lemma postgres_sslmode_option_witness :
  let cfg := demo_postgres (secret "db-creds" "username") "require" in
  let res := CreatePostGresDBSession demo_env "argo" cfg (Some demo_pool) demo_state in
  PostgreSQLConfig.SSL cfg = true
  /\ PostgreSQLConfig.SSLMode cfg = "require"
  /\ exists d ok,
       EvOpen Postgres d ok ∈ events_since demo_state (snd res)
       /\ d_User d = "argo" /\ d_Password d = "s3cret"
       /\ exists options,
            d_Options d = Some options /\ options !! "sslmode" = Some "require".
Proof.
  cbv zeta. split; [reflexivity | split; [reflexivity |]].
  destruct (postgres_sslmode_option demo_env "argo"
              (demo_postgres (secret "db-creds" "username") "require")
              (Some demo_pool) demo_state eq_refl) as (Hrequire & _ & Hopen).
  destruct (Hopen "argo" "s3cret" eq_refl eq_refl)
    as (d & ok & Hin & Huser & Hpassword & _).
  destruct (Hrequire eq_refl Postgres d ok Hin) as (options & Hoptions & Hmode & _).
  exists d, ok. repeat split; try assumption. exists options. by split.
Defined.

(** ** The MySQL character set *)

(** C7: in [CreateMySQLDBSession], the calls that follow a successful [Open]
    are the pool setters and then "SET NAMES 'utf8mb4'" and "SET CHARACTER
    SET utf8mb4", in that order, each executed on the session as the calls
    before it left it.  If the first statement fails the builder returns its
    error, a [ConnectionError], and no session, without executing the second;
    if the second fails it returns its error and no session; otherwise it
    returns the session, on which both statements have been executed.
    Nothing is executed before a successful [Open]. *)
Theorem mysql_charset_statements (E : Env) (namespace : string) (cfg : MySQLConfig.t)
    (pool : option ConnectionPool) (st : State) :
  let r := fst (CreateMySQLDBSession E namespace cfg pool st) in
  let st' := snd (CreateMySQLDBSession E namespace cfg pool st) in
  (forall pre d post,
     events_since st st' = pre ++ EvOpen Mysql d true :: post ->
     let s1 := configured pool
                 {| s_backend := Mysql; s_descriptor := d;
                    s_maxOpenConns := None; s_maxIdleConns := None;
                    s_connMaxLifetime := None; s_executed := [] |} in
     let s2 := with_executed "SET NAMES 'utf8mb4'" s1 in
     let s3 := with_executed "SET CHARACTER SET utf8mb4" s2 in
     match Exec_err E s1 "SET NAMES 'utf8mb4'" with
     | Some msg =>
         post = pool_events pool ++ [EvExec "SET NAMES 'utf8mb4'" false]
         /\ r = Ret2 None (Some (ExecError msg))
     | None =>
         match Exec_err E s2 "SET CHARACTER SET utf8mb4" with
         | Some msg =>
             post = pool_events pool
                    ++ [EvExec "SET NAMES 'utf8mb4'" true;
                        EvExec "SET CHARACTER SET utf8mb4" false]
             /\ r = Ret2 None (Some (ExecError msg))
         | None =>
             post = pool_events pool
                    ++ [EvExec "SET NAMES 'utf8mb4'" true;
                        EvExec "SET CHARACTER SET utf8mb4" true]
             /\ exists session,
                  r = Ret2 (Some session) None /\ sessions st' !! session = Some s3
         end
     end)
  /\ (forall pre stmt ok post,
       events_since st st' = pre ++ EvExec stmt ok :: post ->
       exists d, EvOpen Mysql d true ∈ pre)
  /\ (forall msg, error_kind (ExecError msg) = ConnectionError).
Proof.
  intros r st'. split; [| split; [| reflexivity]].
  - intros pre d post Hsplit.
    pattern r, st'.
    match goal with |- ?P r st' => set (Q := P) end.
    revert Hsplit. subst r st'.
    destruct (CreateMySQLDBSession E namespace cfg pool st) as [r st'] eqn:Hrun.
    cbn [fst snd]. revert Hrun.
    destruct st as [hm reg ss tr], pool as [pool|].
    all: run_paths; norm_events; intros Hsplit.
    all: invert_split Hsplit pre.
    all: subst Q; eval_code.
    all: repeat match goal with
           | H : ?x = _ |- context [match ?x with _ => _ end] => rewrite H
           end.
    all: try (split; [reflexivity | try reflexivity]).
    all: eexists; split; [reflexivity |].
    all: by rewrite lookup_insert_eq.
  - intros pre stmt ok post. subst r st'.
    destruct (CreateMySQLDBSession E namespace cfg pool st) as [r st'] eqn:Hrun.
    cbn [fst snd]. revert Hrun.
    destruct st as [hm reg ss tr], pool as [pool|].
    all: run_paths; norm_events; intros Hsplit.
    all: invert_split Hsplit pre.
    all: eexists; rewrite !elem_of_cons; eauto 10.
Qed.

Lemma mysql_charset_statements_witness :
  let res := CreateMySQLDBSession demo_env "argo"
               (demo_mysql "argo_workflows" (secret "db-creds" "username")
                  (secret "db-creds" "password") SecretKeySelector_zero)
               (Some demo_pool) demo_state in
  let d := {| d_User := "argo"; d_Password := "s3cret"; d_Host := "mysql:3306";
              d_Database := "argo";
              d_Options := Some {[ "parseTime" := "true" ]} |} in
  exists session,
    fst res = Ret2 (Some session) None
    /\ sessions (snd res) !! session
       = Some {| s_backend := Mysql; s_descriptor := d;
                 s_maxOpenConns := Some 5; s_maxIdleConns := Some 2;
                 s_connMaxLifetime := Some 3600;
                 s_executed := ["SET NAMES 'utf8mb4'"; "SET CHARACTER SET utf8mb4"] |}.
Proof.
  exact (proj2 (proj1 (mysql_charset_statements demo_env "argo"
                  (demo_mysql "argo_workflows" (secret "db-creds" "username")
                     (secret "db-creds" "password") SecretKeySelector_zero)
                  (Some demo_pool) demo_state)
           [EvGetSecrets "argo" "db-creds" "username" true;
            EvGetSecrets "argo" "db-creds" "password" true]
           {| d_User := "argo"; d_Password := "s3cret"; d_Host := "mysql:3306";
              d_Database := "argo";
              d_Options := Some {[ "parseTime" := "true" ]} |}
           [EvSetMaxOpenConns 5; EvSetMaxIdleConns 2; EvSetConnMaxLifetime 3600;
            EvExec "SET NAMES 'utf8mb4'" true; EvExec "SET CHARACTER SET utf8mb4" true]
           eq_refl)).
Defined.

(** ** Errors and sessions *)

(** C8: for [CreateDBSession] and for both builders, on every input, a
    returned error comes with no session, and a failing call to a
    collaborator is the last call made and makes the function return an
    error: the function returns at the first failing step. *)
Theorem error_returns_no_session (E : Env) (namespace : string) (st : State) :
  (forall persistConfig,
     returns_at_first_failure st (CreateDBSession E namespace persistConfig st))
  /\ (forall cfg pool,
     returns_at_first_failure st (CreatePostGresDBSession E namespace cfg pool st))
  /\ (forall cfg pool,
     returns_at_first_failure st (CreateMySQLDBSession E namespace cfg pool st)).
Proof.
  split; [| split].
  - intros [[[pg|] [my|] pool]|]; unfold CreateDBSession;
      cbn [PersistConfig.PostgreSQL PersistConfig.MySQL PersistConfig.ConnectionPool].
    1,2: apply CreatePostGresDBSession_first_failure.
    1: apply CreateMySQLDBSession_first_failure.
    all: destruct st as [hm reg ss tr]; unfold returns_at_first_failure, events_since;
      cbn [fst snd trace]; rewrite drop_all.
    all: split; [ cbn; congruence | intros [|? pre] ev post Hsplit; discriminate Hsplit ].
  - intros. apply CreatePostGresDBSession_first_failure.
  - intros. apply CreateMySQLDBSession_first_failure.
Qed.

(** ** Calling twice *)

(** Repeatability of [CreateDBSession], from that of the two builders. *)
Lemma CreateDBSession_repeatable (E : Env) (namespace : string)
    (persistConfig : option PersistConfig.t) (st : State) :
  repeatable (CreateDBSession E namespace persistConfig) st.
Proof.
  destruct persistConfig as [[[pg|] [my|] pool]|]; unfold CreateDBSession;
    cbn [PersistConfig.PostgreSQL PersistConfig.MySQL PersistConfig.ConnectionPool].
  1,2: apply (CreatePostGresDBSession_repeatable E namespace pg pool st).
  1: apply (CreateMySQLDBSession_repeatable E namespace my pool st).
  all: unfold repeatable, events_since; cbn [fst snd ret_error ret_session]; done.
Qed.

(** C9 as the spec states it fails: with a CA certificate configured, the
    first call writes the TLS registry and the options map of the
    configuration, which the second call reads and writes again. *)
Lemma CreateDBSession_shares_state :
  let f := CreateDBSession demo_env "argo" (Some demo_config) in
  tlsConfigRegistry demo_state !! "argo-ca-cert" = None
  /\ tlsConfigRegistry (snd (f demo_state)) !! "argo-ca-cert" = Some ["ca"]
  /\ maps demo_state !! 1%positive = Some {[ "parseTime" := "true" ]}
  /\ maps (snd (f demo_state)) !! 1%positive
     = Some {[ "parseTime" := "true"; "tls" := "argo-ca-cert" ]}
  /\ ~ (repeatable f demo_state /\ shares_no_state f demo_state).
Proof.
  cbv zeta. repeat split; try (vm_compute; reflexivity).
  intros [_ [Hreg _]].
  apply (f_equal (fun m => m !! "argo-ca-cert")) in Hreg.
  vm_compute in Hreg. discriminate Hreg.
Qed.

(** A new map address differs from every address in use. *)
Lemma fresh_map_ne (m : gmap MapRef (gmap string string)) (l : MapRef) :
  is_Some (m !! l) -> fresh (dom m) <> l.
Proof.
  intros Hsome Heq. apply elem_of_dom in Hsome. rewrite <- Heq in Hsome.
  by apply is_fresh in Hsome.
Qed.

(** The PostgreSQL builder shares no state, and registers nothing. *)
Lemma CreatePostGresDBSession_shares_no_state E ns cfg pool st :
  shares_no_state (CreatePostGresDBSession E ns cfg pool) st.
Proof.
  unfold shares_no_state.
  destruct (CreatePostGresDBSession E ns cfg pool st) as [r st'] eqn:Hrun.
  cbn [fst snd]. revert Hrun. destruct st as [hm reg ss tr], pool as [pool|].
  all: run_paths; (split; [reflexivity | intros l Hl]).
  all: assert (Hne : fresh (dom hm) <> l) by (by apply fresh_map_ne).
  all: simpl_lookups; done.
Qed.

Lemma CreatePostGresDBSession_registers_nothing E ns cfg pool st key ok :
  EvRegisterTLSConfig key ok
    ∉ events_since st (snd (CreatePostGresDBSession E ns cfg pool st)).
Proof.
  destruct (CreatePostGresDBSession E ns cfg pool st) as [r st'] eqn:Hrun.
  cbn [fst snd]. revert Hrun. destruct st as [hm reg ss tr], pool as [pool|].
  all: run_paths; norm_events; rewrite ?elem_of_cons, elem_of_nil; intros Hin.
  all: repeat (destruct Hin as [Hin|Hin]; [discriminate Hin |]); done.
Qed.

(** The MySQL builder shares no state on the paths on which no registration
    succeeds. *)
Lemma CreateMySQLDBSession_shares_no_state E ns cfg pool st :
  EvRegisterTLSConfig "argo-ca-cert" true
    ∉ events_since st (snd (CreateMySQLDBSession E ns cfg pool st)) ->
  shares_no_state (CreateMySQLDBSession E ns cfg pool) st.
Proof.
  unfold shares_no_state.
  destruct (CreateMySQLDBSession E ns cfg pool st) as [r st'] eqn:Hrun.
  cbn [fst snd]. revert Hrun. destruct st as [hm reg ss tr], pool as [pool|].
  all: run_paths; norm_events; intros Hnone.
  all: try (exfalso; apply Hnone; rewrite !elem_of_cons; eauto 10; fail).
  all: split; [reflexivity | intros addr Haddr].
  all: assert (Hne : fresh (dom hm) <> addr) by (by apply fresh_map_ne).
  all: simpl_lookups; done.
Qed.

(** What the MySQL builder writes on the paths on which the registration
    succeeds. *)
Lemma CreateMySQLDBSession_registration E ns cfg pool st :
  let res := CreateMySQLDBSession E ns cfg pool st in
  EvRegisterTLSConfig "argo-ca-cert" true ∈ events_since st (snd res) ->
  MySQLConfig.CaCertSecret cfg <> SecretKeySelector_zero
  /\ exists caCert,
       GetSecrets E ns (Name (MySQLConfig.CaCertSecret cfg))
         (Key (MySQLConfig.CaCertSecret cfg)) = Success caCert
       /\ pemCerts E caCert <> []
       /\ tlsConfigRegistry (snd res)
          = <["argo-ca-cert" := pemCerts E caCert]> (tlsConfigRegistry st)
       /\ forall l m,
            maps st !! l = Some m ->
            exists m',
              maps (snd res) !! l = Some m'
              /\ (forall k, k <> "tls" -> m' !! k = m !! k)
              /\ (MySQLConfig.Options cfg <> Some l -> m' = m).
Proof.
  cbv zeta.
  destruct (CreateMySQLDBSession E ns cfg pool st) as [r st'] eqn:Hrun.
  cbn [fst snd]. revert Hrun. destruct st as [hm reg ss tr], pool as [pool|].
  all: run_paths; norm_events; rewrite ?elem_of_cons, elem_of_nil; intros Hin.
  all: try (repeat (destruct Hin as [Hin|Hin]; [discriminate Hin |]); done).
  all: clear Hin; split; [assumption |]; eexists; split; [reflexivity |].
  all: split; [congruence |]; split; [congruence |]; intros addr contents Hm.
  all: assert (Hne : fresh (dom hm) <> addr) by (apply fresh_map_ne; eauto).
  all: try (exists contents; split; [simpl_lookups; done | split; done]).
  all: match goal with
       | H : MySQLConfig.Options _ = Some ?l0 |- _ =>
           destruct (decide (l0 = addr)) as [->|Hne']
       end.
  all: try (exists contents; split; [by rewrite lookup_insert_ne | split; done]).
  all: rewrite lookup_insert_eq, Hm; eexists; split; [reflexivity |].
  all: split; [intros k Hk; by rewrite lookup_insert_ne | done].
Qed.

(** The registration does take place: with a table name, the three secrets
    found, a certificate in the PEM and a driver that accepts it. *)
Lemma CreateMySQLDBSession_registers E ns cfg pool st user password caCert :
  MySQLConfig.TableName cfg <> "" ->
  MySQLConfig.CaCertSecret cfg <> SecretKeySelector_zero ->
  GetSecrets E ns (Name (MySQLConfig.UsernameSecret cfg))
    (Key (MySQLConfig.UsernameSecret cfg)) = Success user ->
  GetSecrets E ns (Name (MySQLConfig.PasswordSecret cfg))
    (Key (MySQLConfig.PasswordSecret cfg)) = Success password ->
  GetSecrets E ns (Name (MySQLConfig.CaCertSecret cfg))
    (Key (MySQLConfig.CaCertSecret cfg)) = Success caCert ->
  pemCerts E caCert <> [] ->
  RegisterTLSConfig_err E "argo-ca-cert" = None ->
  EvRegisterTLSConfig "argo-ca-cert" true
    ∈ events_since st (snd (CreateMySQLDBSession E ns cfg pool st)).
Proof.
  intros Htable Hca Huser Hpassword Hcert Hpem Hregister.
  destruct (CreateMySQLDBSession E ns cfg pool st) as [r st'] eqn:Hrun.
  cbn [fst snd]. revert Hrun. destruct st as [hm reg ss tr], pool as [pool|].
  all: run_paths; try congruence.
  all: norm_events; rewrite !elem_of_cons; eauto 10.
Qed.

(** C9, as the code has it.  Determinism: a second call of [CreateDBSession]
    with the same configuration and namespace, in the store the first call
    left, takes the same branch, makes the same calls with the same
    descriptor and the same pool settings, and returns the same error or a
    second session, different from the first and in the same state, leaving
    the first one as it was.  Isolation: a call in which no TLS registration
    succeeds (every call on the PostgreSQL path, every call for a MySQL
    configuration without a CA certificate) shares no state with a later
    call: the registry and the existing maps are as before.  The exception: a
    registration succeeds only on the MySQL path with a CA certificate
    configured, and it does whenever the table name is set, the three secrets
    are found, the PEM holds a certificate and the driver accepts it; the
    call then puts the certificates parsed from the CA secret in the driver's
    registry under "argo-ca-cert" and changes nothing else in the registry,
    and of the existing maps it changes at most the entry [tls] of the
    configuration's own options map. *)
Theorem CreateDBSession_twice (E : Env) (namespace : string)
    (persistConfig : option PersistConfig.t) (st : State) :
  let f := CreateDBSession E namespace persistConfig in
  let registered :=
    EvRegisterTLSConfig "argo-ca-cert" true ∈ events_since st (snd (f st)) in
  repeatable f st
  /\ (~ registered -> shares_no_state f st)
  /\ (registered ->
      exists pc my caCert,
        persistConfig = Some pc
        /\ PersistConfig.PostgreSQL pc = None
        /\ PersistConfig.MySQL pc = Some my
        /\ MySQLConfig.CaCertSecret my <> SecretKeySelector_zero
        /\ GetSecrets E namespace (Name (MySQLConfig.CaCertSecret my))
             (Key (MySQLConfig.CaCertSecret my)) = Success caCert
        /\ pemCerts E caCert <> []
        /\ tlsConfigRegistry (snd (f st))
           = <["argo-ca-cert" := pemCerts E caCert]> (tlsConfigRegistry st)
        /\ forall l m,
             maps st !! l = Some m ->
             exists m',
               maps (snd (f st)) !! l = Some m'
               /\ (forall k, k <> "tls" -> m' !! k = m !! k)
               /\ (MySQLConfig.Options my <> Some l -> m' = m))
  /\ (forall my pool user password caCert,
      persistConfig
      = Some {| PersistConfig.PostgreSQL := None; PersistConfig.MySQL := Some my;
                PersistConfig.ConnectionPool := pool |} ->
      MySQLConfig.TableName my <> "" ->
      MySQLConfig.CaCertSecret my <> SecretKeySelector_zero ->
      GetSecrets E namespace (Name (MySQLConfig.UsernameSecret my))
        (Key (MySQLConfig.UsernameSecret my)) = Success user ->
      GetSecrets E namespace (Name (MySQLConfig.PasswordSecret my))
        (Key (MySQLConfig.PasswordSecret my)) = Success password ->
      GetSecrets E namespace (Name (MySQLConfig.CaCertSecret my))
        (Key (MySQLConfig.CaCertSecret my)) = Success caCert ->
      pemCerts E caCert <> [] ->
      RegisterTLSConfig_err E "argo-ca-cert" = None ->
      registered).
Proof.
  cbv zeta. split; [apply CreateDBSession_repeatable |].
  match goal with |- ?B /\ ?C /\ ?D => cut (B /\ C) end.
  { intros [Hisolated Hshared]. split; [exact Hisolated | split; [exact Hshared |]].
    intros my pool user password caCert -> Htable Hca Huser Hpassword Hcert Hpem Hreg.
    unfold CreateDBSession;
      cbn [PersistConfig.PostgreSQL PersistConfig.MySQL PersistConfig.ConnectionPool].
    by eapply CreateMySQLDBSession_registers. }
  destruct persistConfig as [[[pg|] [my|] pool]|]; unfold CreateDBSession;
    cbn [PersistConfig.PostgreSQL PersistConfig.MySQL PersistConfig.ConnectionPool].
  1,2: split; [intros _; apply CreatePostGresDBSession_shares_no_state |];
    intros Hin; by apply CreatePostGresDBSession_registers_nothing in Hin.
  - split; [apply CreateMySQLDBSession_shares_no_state |].
    intros Hin.
    destruct (CreateMySQLDBSession_registration E namespace my pool st Hin)
      as (Hca & caCert & Hcert & Hpem & Hregistry & Hmaps).
    exists {| PersistConfig.PostgreSQL := None; PersistConfig.MySQL := Some my;
              PersistConfig.ConnectionPool := pool |}, my, caCert.
    repeat split; assumption.
  - unfold shares_no_state, events_since; cbn [fst snd]; rewrite drop_all.
    split; [done | intros Hin; by apply elem_of_nil in Hin].
  - unfold shares_no_state, events_since; cbn [fst snd]; rewrite drop_all.
    split; [done | intros Hin; by apply elem_of_nil in Hin].
Qed.

(** At the concrete configuration with a CA certificate the registration
    does succeed and the registry ends as the theorem says, while the same
    call on the PostgreSQL path shares no state. *)
Lemma CreateDBSession_twice_witness :
  let f := CreateDBSession demo_env "argo" (Some demo_config) in
  EvRegisterTLSConfig "argo-ca-cert" true ∈ events_since demo_state (snd (f demo_state))
  /\ tlsConfigRegistry (snd (f demo_state)) = {[ "argo-ca-cert" := ["ca"] ]}
  /\ shares_no_state
       (CreateDBSession demo_env "argo"
          (Some {| PersistConfig.PostgreSQL :=
                     Some (demo_postgres (secret "db-creds" "username") "require");
                   PersistConfig.MySQL := PersistConfig.MySQL demo_config;
                   PersistConfig.ConnectionPool := None |}))
       demo_state.
Proof.
  cbv zeta.
  assert (Hin : EvRegisterTLSConfig "argo-ca-cert" true
                ∈ events_since demo_state
                    (snd (CreateDBSession demo_env "argo" (Some demo_config)
                            demo_state))).
  { refine (proj2 (proj2 (proj2 (CreateDBSession_twice demo_env "argo"
                                   (Some demo_config) demo_state)))
              (demo_mysql_ca (secret "db-ca" "ca.pem")) (Some demo_pool)
              "argo" "s3cret" "-----BEGIN CERTIFICATE-----"
              eq_refl _ _ eq_refl eq_refl eq_refl _ eq_refl); discriminate. }
  split; [exact Hin | split].
  - destruct (proj1 (proj2 (proj2 (CreateDBSession_twice demo_env "argo"
                                     (Some demo_config) demo_state))) Hin)
      as (pc & my & caCert & [= <-] & _ & [= <-] & _ & [= <-] & _ & Hregistry & _).
    exact Hregistry.
  - apply (proj1 (proj2 (CreateDBSession_twice demo_env "argo"
                           (Some {| PersistConfig.PostgreSQL :=
                                      Some (demo_postgres (secret "db-creds" "username")
                                              "require");
                                    PersistConfig.MySQL := PersistConfig.MySQL demo_config;
                                    PersistConfig.ConnectionPool := None |})
                           demo_state))).
    vm_compute. intros Hin'.
    repeat (apply elem_of_cons in Hin' as [Hin'|Hin']; [discriminate Hin' |]).
    by apply elem_of_nil in Hin'.
Defined.

(** ** Further properties of the session builders *)

(** *** Support *)

Lemma fresh_ne_key {A} (m : gmap positive A) (l : positive) :
  is_Some (m !! l) -> fresh (dom m) <> l.
Proof.
  intros Hsome Heq. apply elem_of_dom in Hsome. rewrite <- Heq in Hsome.
  by apply is_fresh in Hsome.
Qed.

(** Run a builder once, on a store taken apart and for both kinds of pool. *)
Ltac explore f st pool :=
  let r := fresh "r" in
  let st' := fresh "st'" in
  let Hrun := fresh "Hrun" in
  destruct (f st) as [r st'] eqn:Hrun; cbn [fst snd]; revert Hrun;
  destruct st as [hm reg ss tr], pool as [pool|];
  run_paths.

Lemma CreatePostGresDBSession_calls_something E ns cfg pool st :
  events_since st (snd (CreatePostGresDBSession E ns cfg pool st)) <> [].
Proof.
  explore (CreatePostGresDBSession E ns cfg pool) st pool.
  all: norm_events; discriminate.
Qed.

Lemma CreateMySQLDBSession_calls_something E ns cfg pool st :
  MySQLConfig.TableName cfg <> "" ->
  events_since st (snd (CreateMySQLDBSession E ns cfg pool st)) <> [].
Proof.
  intros Htable.
  explore (CreateMySQLDBSession E ns cfg pool) st pool.
  all: norm_events; discriminate.
Qed.

Lemma CreateMySQLDBSession_rejects E ns cfg pool st :
  MySQLConfig.TableName cfg = "" ->
  CreateMySQLDBSession E ns cfg pool st
  = (Ret2 None (Some (InternalError "tableName is empty")), st).
Proof.
  intros Htable. unfold CreateMySQLDBSession, run, bind, return_.
  by rewrite bool_decide_eq_true_2.
Qed.

Lemma CreatePostGresDBSession_session_xor_error E ns cfg pool st :
  session_xor_error st (CreatePostGresDBSession E ns cfg pool st).
Proof.
  unfold session_xor_error.
  explore (CreatePostGresDBSession E ns cfg pool) st pool.
  all: cbn [ret_session ret_error]; split; [split; congruence |].
  all: intros h Hh;
    first [ discriminate Hh
          | injection Hh as <-; split;
            [ apply not_elem_of_dom, is_fresh | simpl_lookups; done ] ].
Qed.

Lemma CreateMySQLDBSession_session_xor_error E ns cfg pool st :
  session_xor_error st (CreateMySQLDBSession E ns cfg pool st).
Proof.
  unfold session_xor_error.
  explore (CreateMySQLDBSession E ns cfg pool) st pool.
  all: cbn [ret_session ret_error]; split; [split; congruence |].
  all: intros h Hh;
    first [ discriminate Hh
          | injection Hh as <-; split;
            [ apply not_elem_of_dom, is_fresh | simpl_lookups; done ] ].
Qed.

Lemma CreatePostGresDBSession_keeps_sessions E ns cfg pool st h s :
  sessions st !! h = Some s ->
  sessions (snd (CreatePostGresDBSession E ns cfg pool st)) !! h = Some s.
Proof.
  intros Hs.
  assert (Hne : fresh (dom (sessions st)) <> h) by (apply fresh_ne_key; eauto).
  revert Hs Hne.
  explore (CreatePostGresDBSession E ns cfg pool) st pool.
  all: intros Hs Hne; simpl_lookups; done.
Qed.

Lemma CreateMySQLDBSession_keeps_sessions E ns cfg pool st h s :
  sessions st !! h = Some s ->
  sessions (snd (CreateMySQLDBSession E ns cfg pool st)) !! h = Some s.
Proof.
  intros Hs.
  assert (Hne : fresh (dom (sessions st)) <> h) by (apply fresh_ne_key; eauto).
  revert Hs Hne.
  explore (CreateMySQLDBSession E ns cfg pool) st pool.
  all: intros Hs Hne; simpl_lookups; done.
Qed.

(** *** What [CreateDBSession] returns and what it leaves alone *)

(** X1: [CreateDBSession] returns without calling any collaborator exactly
    when the configuration is nil, names no backend, or names MySQL alone
    with an empty table name; it then returns a [ConfigError], no session,
    and the store as it was. *)
Theorem no_call_iff_rejected (E : Env) (namespace : string)
    (persistConfig : option PersistConfig.t) (st : State) :
  let res := CreateDBSession E namespace persistConfig st in
  (events_since st (snd res) = [] <-> rejected_outright persistConfig)
  /\ (rejected_outright persistConfig ->
      snd res = st /\ ret_session (fst res) = None
      /\ exists e, ret_error (fst res) = Some e /\ error_kind e = ConfigError).
Proof.
  assert (Hnone : events_since st st = []) by (unfold events_since; apply drop_all).
  destruct persistConfig as [[[pg|] [my|] pool]|]; cbv zeta;
    unfold CreateDBSession, rejected_outright;
    cbn [PersistConfig.PostgreSQL PersistConfig.MySQL PersistConfig.ConnectionPool].
  1,2: split; [split |]; [ intros Hev | intros [[=] _] | intros [[=] _] ];
    by apply CreatePostGresDBSession_calls_something in Hev.
  - destruct (decide (MySQLConfig.TableName my = "")) as [Htable|Htable].
    + rewrite CreateMySQLDBSession_rejects by done. cbn [fst snd].
      repeat split; try done. eexists; split; reflexivity.
    + split; [split |].
      * intros Hev. by apply CreateMySQLDBSession_calls_something in Hev.
      * by intros [_ ?].
      * by intros [_ ?].
  - cbn [fst snd]. repeat split; try done. eexists; split; reflexivity.
  - cbn [fst snd]. repeat split; try done. eexists; split; reflexivity.
Qed.

(** X2: [CreateDBSession] returns a session exactly when it returns no
    error; a returned session was not in the store before the call and is
    open after it. *)
Theorem CreateDBSession_session_xor_error (E : Env) (namespace : string)
    (persistConfig : option PersistConfig.t) (st : State) :
  session_xor_error st (CreateDBSession E namespace persistConfig st).
Proof.
  destruct persistConfig as [[[pg|] [my|] pool]|]; unfold CreateDBSession;
    cbn [PersistConfig.PostgreSQL PersistConfig.MySQL PersistConfig.ConnectionPool].
  1,2: apply CreatePostGresDBSession_session_xor_error.
  1: apply CreateMySQLDBSession_session_xor_error.
  all: unfold session_xor_error; cbn [fst snd ret_session ret_error].
  all: split; [split; congruence | intros h [=]].
Qed.

(** X3: [CreateDBSession] leaves every session that was already open as it
    was, whatever the outcome. *)
Theorem CreateDBSession_keeps_sessions (E : Env) (namespace : string)
    (persistConfig : option PersistConfig.t) (st : State) (h : Session)
    (s : SessionState) :
  sessions st !! h = Some s ->
  sessions (snd (CreateDBSession E namespace persistConfig st)) !! h = Some s.
Proof.
  intros Hs.
  destruct persistConfig as [[[pg|] [my|] pool]|]; unfold CreateDBSession;
    cbn [PersistConfig.PostgreSQL PersistConfig.MySQL PersistConfig.ConnectionPool].
  1,2: by apply CreatePostGresDBSession_keeps_sessions.
  1: by apply CreateMySQLDBSession_keeps_sessions.
  all: done.
Qed.

Lemma CreateDBSession_keeps_sessions_witness :
  sessions demo_state_with_session !! 7%positive = Some demo_session
  /\ sessions (snd (CreateDBSession demo_env "argo" (Some demo_config)
                      demo_state_with_session)) !! 7%positive
     = Some demo_session.
Proof.
  split; [reflexivity |].
  exact (CreateDBSession_keeps_sessions demo_env "argo" (Some demo_config)
           demo_state_with_session 7%positive demo_session eq_refl).
Defined.

(** *** Sessions that are opened *)

(** X4: when a charset statement fails, [CreateMySQLDBSession] returns no
    session, but the session it opened is not closed: it stays in the store,
    opened on MySQL and with the pool limits set. *)
Theorem exec_failure_leaves_session_open (E : Env) (namespace : string)
    (cfg : MySQLConfig.t) (pool : option ConnectionPool) (st : State)
    (pre : list Event) (stmt : string) (post : list Event) :
  let res := CreateMySQLDBSession E namespace cfg pool st in
  events_since st (snd res) = pre ++ EvExec stmt false :: post ->
  ret_session (fst res) = None
  /\ exists h s,
       sessions st !! h = None
       /\ sessions (snd res) !! h = Some s
       /\ s_backend s = Mysql
       /\ s_maxOpenConns s = MaxOpenConns <$> pool
       /\ s_maxIdleConns s = MaxIdleConns <$> pool
       /\ s_connMaxLifetime s = ConnMaxLifetime <$> pool.
Proof.
  cbv zeta.
  explore (CreateMySQLDBSession E namespace cfg pool) st pool.
  all: norm_events; intros Hsplit; invert_split Hsplit pre.
  all: split; [reflexivity |].
  all: eexists (fresh (dom ss)), _; split; [apply not_elem_of_dom, is_fresh |].
  all: split; [simpl_lookups; reflexivity |].
  all: repeat split.
Qed.

Lemma exec_failure_leaves_session_open_witness :
  let res := CreateMySQLDBSession demo_env_exec_fails "argo"
               (demo_mysql_ca SecretKeySelector_zero) (Some demo_pool) demo_state in
  fst res = Ret2 None (Some (ExecError "unknown character set"))
  /\ ret_session (fst res) = None
  /\ exists h s,
       sessions demo_state !! h = None
       /\ sessions (snd res) !! h = Some s
       /\ s_backend s = Mysql
       /\ s_maxOpenConns s = Some 5
       /\ s_maxIdleConns s = Some 2
       /\ s_connMaxLifetime s = Some 3600.
Proof.
  cbv zeta. split; [reflexivity |].
  exact (exec_failure_leaves_session_open demo_env_exec_fails "argo"
           (demo_mysql_ca SecretKeySelector_zero) (Some demo_pool) demo_state
           [EvGetSecrets "argo" "db-creds" "username" true;
            EvGetSecrets "argo" "db-creds" "password" true;
            EvOpen Mysql
              {| d_User := "argo"; d_Password := "s3cret"; d_Host := "mysql:3306";
                 d_Database := "argo";
                 d_Options := Some {[ "parseTime" := "true" ]} |} true;
            EvSetMaxOpenConns 5; EvSetMaxIdleConns 2; EvSetConnMaxLifetime 3600;
            EvExec "SET NAMES 'utf8mb4'" true]
           "SET CHARACTER SET utf8mb4" [] eq_refl).
Defined.

(** X5: when both lookups and [Open] succeed, [CreatePostGresDBSession]
    returns a new session, opened on PostgreSQL with the descriptor filled
    from the configuration, carrying the pool limits if a pool is configured
    and on which nothing has been executed; the calls it made are the two
    lookups, [Open] and the pool setters. *)
Theorem postgres_success (E : Env) (namespace : string) (cfg : PostgreSQLConfig.t)
    (pool : option ConnectionPool) (st : State) (user password : string) :
  GetSecrets E namespace (Name (PostgreSQLConfig.UsernameSecret cfg))
    (Key (PostgreSQLConfig.UsernameSecret cfg)) = Success user ->
  GetSecrets E namespace (Name (PostgreSQLConfig.PasswordSecret cfg))
    (Key (PostgreSQLConfig.PasswordSecret cfg)) = Success password ->
  Open_err E Postgres (postgres_descriptor cfg user password) = None ->
  let res := CreatePostGresDBSession E namespace cfg pool st in
  exists h,
    fst res = Ret2 (Some h) None
    /\ sessions st !! h = None
    /\ sessions (snd res) !! h
       = Some (configured pool
                 {| s_backend := Postgres;
                    s_descriptor := postgres_descriptor cfg user password;
                    s_maxOpenConns := None; s_maxIdleConns := None;
                    s_connMaxLifetime := None; s_executed := [] |})
    /\ events_since st (snd res)
       = [EvGetSecrets namespace (Name (PostgreSQLConfig.UsernameSecret cfg))
            (Key (PostgreSQLConfig.UsernameSecret cfg)) true;
          EvGetSecrets namespace (Name (PostgreSQLConfig.PasswordSecret cfg))
            (Key (PostgreSQLConfig.PasswordSecret cfg)) true;
          EvOpen Postgres (postgres_descriptor cfg user password) true]
         ++ pool_events pool.
Proof.
  intros Huser Hpassword Hopen. cbv zeta.
  unfold postgres_descriptor in *. revert Hopen.
  explore (CreatePostGresDBSession E namespace cfg pool) st pool.
  all: norm_events; intros Hopen; try congruence.
  all: exists (fresh (dom ss)); split; [reflexivity |].
  all: split; [apply not_elem_of_dom, is_fresh |].
  all: split; [simpl_lookups; reflexivity | reflexivity].
Qed.

Lemma postgres_success_witness :
  let cfg := demo_postgres (secret "db-creds" "username") "verify-full" in
  let res := CreatePostGresDBSession demo_env "argo" cfg (Some demo_pool) demo_state in
  exists h,
    fst res = Ret2 (Some h) None
    /\ sessions demo_state !! h = None
    /\ sessions (snd res) !! h
       = Some {| s_backend := Postgres;
                 s_descriptor :=
                   {| d_User := "argo"; d_Password := "s3cret";
                      d_Host := "postgres:5432"; d_Database := "argo";
                      d_Options := Some {[ "sslmode" := "verify-full" ]} |};
                 s_maxOpenConns := Some 5; s_maxIdleConns := Some 2;
                 s_connMaxLifetime := Some 3600; s_executed := [] |}.
Proof.
  cbv zeta.
  destruct (postgres_success demo_env "argo"
              (demo_postgres (secret "db-creds" "username") "verify-full")
              (Some demo_pool) demo_state "argo" "s3cret" eq_refl eq_refl eq_refl)
    as (h & Hret & Hnew & Hsession & _).
  exists h. repeat split; assumption.
Defined.

(** X6: the PostgreSQL path does not check the table name.  With an empty
    [TableName], [CreateDBSession] still opens and returns a session (where
    the MySQL builder refuses), while [GetTableName] on the same
    configuration returns its error. *)
Theorem postgres_ignores_table_name (E : Env) (namespace : string)
    (cfg : PostgreSQLConfig.t) (my : option MySQLConfig.t)
    (pool : option ConnectionPool) (st : State) (user password : string) :
  PostgreSQLConfig.TableName cfg = "" ->
  GetSecrets E namespace (Name (PostgreSQLConfig.UsernameSecret cfg))
    (Key (PostgreSQLConfig.UsernameSecret cfg)) = Success user ->
  GetSecrets E namespace (Name (PostgreSQLConfig.PasswordSecret cfg))
    (Key (PostgreSQLConfig.PasswordSecret cfg)) = Success password ->
  Open_err E Postgres (postgres_descriptor cfg user password) = None ->
  let persistConfig :=
    {| PersistConfig.PostgreSQL := Some cfg; PersistConfig.MySQL := my;
       PersistConfig.ConnectionPool := pool |} in
  (exists h, fst (CreateDBSession E namespace (Some persistConfig) st)
             = Ret2 (Some h) None)
  /\ GetTableName persistConfig = ("", Some (InternalError "TableName is empty")).
Proof.
  intros Htable Huser Hpassword Hopen. cbv zeta. split.
  - unfold CreateDBSession;
      cbn [PersistConfig.PostgreSQL PersistConfig.MySQL PersistConfig.ConnectionPool].
    unfold postgres_descriptor in *. revert Hopen.
    explore (CreatePostGresDBSession E namespace cfg pool) st pool.
    all: intros Hopen; try congruence; eauto.
  - unfold GetTableName; cbn [PersistConfig.PostgreSQL].
    by rewrite Htable.
Qed.

Lemma postgres_ignores_table_name_witness :
  let cfg := {| PostgreSQLConfig.GetHostname := "postgres:5432";
                PostgreSQLConfig.Database := "argo";
                PostgreSQLConfig.TableName := "";
                PostgreSQLConfig.UsernameSecret := secret "db-creds" "username";
                PostgreSQLConfig.PasswordSecret := secret "db-creds" "password";
                PostgreSQLConfig.SSL := false;
                PostgreSQLConfig.SSLMode := "require" |} in
  let persistConfig :=
    {| PersistConfig.PostgreSQL := Some cfg; PersistConfig.MySQL := None;
       PersistConfig.ConnectionPool := None |} in
  (exists h, fst (CreateDBSession demo_env "argo" (Some persistConfig) demo_state)
             = Ret2 (Some h) None)
  /\ GetTableName persistConfig = ("", Some (InternalError "TableName is empty")).
Proof.
  exact (postgres_ignores_table_name demo_env "argo"
           {| PostgreSQLConfig.GetHostname := "postgres:5432";
              PostgreSQLConfig.Database := "argo";
              PostgreSQLConfig.TableName := "";
              PostgreSQLConfig.UsernameSecret := secret "db-creds" "username";
              PostgreSQLConfig.PasswordSecret := secret "db-creds" "password";
              PostgreSQLConfig.SSL := false;
              PostgreSQLConfig.SSLMode := "require" |}
           None None demo_state "argo" "s3cret" eq_refl eq_refl eq_refl eq_refl).
Defined.

(** *** The MySQL descriptor and the CA certificate *)

(** X7: every descriptor [CreateMySQLDBSession] passes to [Open] goes to the
    MySQL client with the host and database of the configuration and the
    credentials the secret store returned, and always has an options map:
    the configuration's options (none for a nil map), unchanged when no CA
    certificate is configured, and otherwise with [tls] set to
    "argo-ca-cert", whatever [tls] was in the configuration. *)
Theorem mysql_descriptor (E : Env) (namespace : string) (cfg : MySQLConfig.t)
    (pool : option ConnectionPool) (st : State) (b : Backend) (d : Descriptor)
    (ok : bool) :
  EvOpen b d ok ∈ events_since st (snd (CreateMySQLDBSession E namespace cfg pool st)) ->
  b = Mysql
  /\ d_Host d = MySQLConfig.GetHostname cfg
  /\ d_Database d = MySQLConfig.Database cfg
  /\ GetSecrets E namespace (Name (MySQLConfig.UsernameSecret cfg))
       (Key (MySQLConfig.UsernameSecret cfg)) = Success (d_User d)
  /\ GetSecrets E namespace (Name (MySQLConfig.PasswordSecret cfg))
       (Key (MySQLConfig.PasswordSecret cfg)) = Success (d_Password d)
  /\ exists options,
       d_Options d = Some options
       /\ (forall k, k <> "tls" -> options !! k = config_options st cfg !! k)
       /\ (MySQLConfig.CaCertSecret cfg = SecretKeySelector_zero ->
           options = config_options st cfg)
       /\ (MySQLConfig.CaCertSecret cfg <> SecretKeySelector_zero ->
           options !! "tls" = Some "argo-ca-cert").
Proof.
  unfold config_options.
  explore (CreateMySQLDBSession E namespace cfg pool) st pool.
  all: norm_events; rewrite ?elem_of_cons, elem_of_nil; intros Hin.
  all: repeat (destruct Hin as [Hin|Hin]; [try discriminate Hin |]); try done.
  all: injection Hin as -> -> ->; cbn [d_Host d_Database d_User d_Password d_Options].
  all: do 5 (split; [done |]); eexists; split; [reflexivity |].
  all: repeat split; try done; intros; rewrite ?lookup_insert_eq; try done.
  all: by rewrite lookup_insert_ne.
Qed.

Lemma mysql_descriptor_witness :
  let res := CreateMySQLDBSession demo_env "argo"
               (demo_mysql_ca (secret "db-ca" "ca.pem")) None demo_state in
  exists d,
    EvOpen Mysql d true ∈ events_since demo_state (snd res)
    /\ d_User d = "argo"
    /\ exists options,
         d_Options d = Some options
         /\ options !! "parseTime" = Some "true"
         /\ options !! "tls" = Some "argo-ca-cert".
Proof.
  cbv zeta.
  set (d := {| d_User := "argo"; d_Password := "s3cret"; d_Host := "mysql:3306";
               d_Database := "argo";
               d_Options := Some {[ "parseTime" := "true"; "tls" := "argo-ca-cert" ]} |}).
  assert (Hin : EvOpen Mysql d true
                ∈ events_since demo_state
                    (snd (CreateMySQLDBSession demo_env "argo"
                            (demo_mysql_ca (secret "db-ca" "ca.pem")) None demo_state))).
  { vm_compute. do 5 apply list_elem_of_further. apply list_elem_of_here. }
  destruct (mysql_descriptor demo_env "argo" (demo_mysql_ca (secret "db-ca" "ca.pem"))
              None demo_state Mysql d true Hin)
    as (_ & _ & _ & _ & _ & options & Hoptions & Hkeep & _ & Htls).
  exists d. split; [exact Hin | split; [reflexivity |]].
  exists options. split; [exact Hoptions | split].
  - rewrite Hkeep by discriminate. reflexivity.
  - apply Htls. discriminate.
Defined.

(** X8: once the table name is accepted and the credentials are found, the
    next call of [CreateMySQLDBSession] is the lookup of the CA certificate
    when the selector differs from the zero [SecretKeySelector] in any field
    (a selector with only [Optional] set is looked up with an empty name and
    key), and [Open] when the selector is the zero value. *)
Theorem ca_lookup_iff_selector_set (E : Env) (namespace : string)
    (cfg : MySQLConfig.t) (pool : option ConnectionPool) (st : State)
    (user password : string) :
  MySQLConfig.TableName cfg <> "" ->
  GetSecrets E namespace (Name (MySQLConfig.UsernameSecret cfg))
    (Key (MySQLConfig.UsernameSecret cfg)) = Success user ->
  GetSecrets E namespace (Name (MySQLConfig.PasswordSecret cfg))
    (Key (MySQLConfig.PasswordSecret cfg)) = Success password ->
  let events := events_since st (snd (CreateMySQLDBSession E namespace cfg pool st)) in
  let ca := MySQLConfig.CaCertSecret cfg in
  (ca <> SecretKeySelector_zero ->
     exists ok, events !! 2%nat = Some (EvGetSecrets namespace (Name ca) (Key ca) ok))
  /\ (ca = SecretKeySelector_zero ->
     exists d ok, events !! 2%nat = Some (EvOpen Mysql d ok)).
Proof.
  intros Htable Huser Hpassword. cbv zeta.
  explore (CreateMySQLDBSession E namespace cfg pool) st pool.
  all: norm_events; split; intros Hca; try done.
  all: cbn [lookup list_lookup]; eauto.
Qed.

Lemma ca_lookup_iff_selector_set_witness :
  let ca := {| Name := ""; Key := ""; Optional := Some true |} in
  let events := events_since demo_state
                  (snd (CreateMySQLDBSession demo_env "argo" (demo_mysql_ca ca)
                          None demo_state)) in
  ca <> SecretKeySelector_zero
  /\ exists ok, events !! 2%nat = Some (EvGetSecrets "argo" "" "" ok).
Proof.
  cbv zeta. split; [discriminate |].
  refine (proj1 (ca_lookup_iff_selector_set demo_env "argo"
                   (demo_mysql_ca {| Name := ""; Key := ""; Optional := Some true |})
                   None demo_state "argo" "s3cret" _ eq_refl eq_refl) _);
    discriminate.
Defined.

(** X9: when the lookup of the CA certificate fails, [CreateMySQLDBSession]
    stops there, after the three lookups: nothing is parsed, registered or
    opened, the TLS registry and the sessions are as before, and it hands
    back the secret store's error and no session (in a [return] statement
    that lists three values). *)
Theorem ca_lookup_failure (E : Env) (namespace : string) (cfg : MySQLConfig.t)
    (pool : option ConnectionPool) (st : State) (user password msg : string) :
  MySQLConfig.TableName cfg <> "" ->
  MySQLConfig.CaCertSecret cfg <> SecretKeySelector_zero ->
  GetSecrets E namespace (Name (MySQLConfig.UsernameSecret cfg))
    (Key (MySQLConfig.UsernameSecret cfg)) = Success user ->
  GetSecrets E namespace (Name (MySQLConfig.PasswordSecret cfg))
    (Key (MySQLConfig.PasswordSecret cfg)) = Success password ->
  GetSecrets E namespace (Name (MySQLConfig.CaCertSecret cfg))
    (Key (MySQLConfig.CaCertSecret cfg)) = Failure msg ->
  let res := CreateMySQLDBSession E namespace cfg pool st in
  fst res = Ret3 None "" (Some (GetSecretsError msg))
  /\ events_since st (snd res)
     = [EvGetSecrets namespace (Name (MySQLConfig.UsernameSecret cfg))
          (Key (MySQLConfig.UsernameSecret cfg)) true;
        EvGetSecrets namespace (Name (MySQLConfig.PasswordSecret cfg))
          (Key (MySQLConfig.PasswordSecret cfg)) true;
        EvGetSecrets namespace (Name (MySQLConfig.CaCertSecret cfg))
          (Key (MySQLConfig.CaCertSecret cfg)) false]
  /\ tlsConfigRegistry (snd res) = tlsConfigRegistry st
  /\ sessions (snd res) = sessions st
  /\ config_options (snd res) cfg = config_options st cfg.
Proof.
  intros Htable Hca Huser Hpassword Hfail. cbv zeta. unfold config_options.
  explore (CreateMySQLDBSession E namespace cfg pool) st pool.
  all: norm_events; repeat split; try done.
Qed.

Lemma ca_lookup_failure_witness :
  let res := CreateMySQLDBSession demo_env "argo"
               (demo_mysql_ca (secret "no-such-secret" "ca.pem")) (Some demo_pool)
               demo_state in
  fst res = Ret3 None "" (Some (GetSecretsError "secret not found"))
  /\ tlsConfigRegistry (snd res) = tlsConfigRegistry demo_state
  /\ sessions (snd res) = sessions demo_state.
Proof.
  cbv zeta.
  assert (Htable : MySQLConfig.TableName
                     (demo_mysql_ca (secret "no-such-secret" "ca.pem")) <> "")
    by discriminate.
  assert (Hca : MySQLConfig.CaCertSecret
                  (demo_mysql_ca (secret "no-such-secret" "ca.pem"))
                <> SecretKeySelector_zero) by discriminate.
  destruct (ca_lookup_failure demo_env "argo"
              (demo_mysql_ca (secret "no-such-secret" "ca.pem")) (Some demo_pool)
              demo_state "argo" "s3cret" "secret not found"
              Htable Hca eq_refl eq_refl eq_refl)
    as (Hret & _ & Hregistry & Hsessions & _).
  repeat split; assumption.
Defined.

(** X10: when the driver refuses the registration, [CreateMySQLDBSession]
    stops there: nothing is opened, the TLS registry, the sessions and the
    configuration's options are as before (the [tls] option is only written
    after a successful registration), and it hands back the driver's error
    and no session (in a [return] statement that lists three values). *)
Theorem register_tls_failure (E : Env) (namespace : string) (cfg : MySQLConfig.t)
    (pool : option ConnectionPool) (st : State)
    (user password caCert msg : string) :
  MySQLConfig.TableName cfg <> "" ->
  MySQLConfig.CaCertSecret cfg <> SecretKeySelector_zero ->
  GetSecrets E namespace (Name (MySQLConfig.UsernameSecret cfg))
    (Key (MySQLConfig.UsernameSecret cfg)) = Success user ->
  GetSecrets E namespace (Name (MySQLConfig.PasswordSecret cfg))
    (Key (MySQLConfig.PasswordSecret cfg)) = Success password ->
  GetSecrets E namespace (Name (MySQLConfig.CaCertSecret cfg))
    (Key (MySQLConfig.CaCertSecret cfg)) = Success caCert ->
  pemCerts E caCert <> [] ->
  RegisterTLSConfig_err E "argo-ca-cert" = Some msg ->
  let res := CreateMySQLDBSession E namespace cfg pool st in
  fst res = Ret3 None "" (Some (RegisterTLSConfigError msg))
  /\ (forall b d ok, EvOpen b d ok ∉ events_since st (snd res))
  /\ tlsConfigRegistry (snd res) = tlsConfigRegistry st
  /\ sessions (snd res) = sessions st
  /\ config_options (snd res) cfg = config_options st cfg.
Proof.
  intros Htable Hca Huser Hpassword Hcert Hpem Hregister. cbv zeta.
  unfold config_options.
  explore (CreateMySQLDBSession E namespace cfg pool) st pool.
  all: try congruence.
  all: norm_events; repeat split; try done.
  all: intros b d ok; rewrite !elem_of_cons, elem_of_nil; intros Hin.
  all: repeat (destruct Hin as [Hin|Hin]; [discriminate Hin |]); done.
Qed.

Lemma register_tls_failure_witness :
  let res := CreateMySQLDBSession demo_env_register_fails "argo"
               (demo_mysql_ca (secret "db-ca" "ca.pem")) (Some demo_pool)
               demo_state in
  fst res = Ret3 None "" (Some (RegisterTLSConfigError "registration refused"))
  /\ tlsConfigRegistry (snd res) = tlsConfigRegistry demo_state
  /\ sessions (snd res) = sessions demo_state
  /\ maps (snd res) = maps demo_state.
Proof.
  cbv zeta.
  assert (Htable : MySQLConfig.TableName (demo_mysql_ca (secret "db-ca" "ca.pem")) <> "")
    by discriminate.
  assert (Hca : MySQLConfig.CaCertSecret (demo_mysql_ca (secret "db-ca" "ca.pem"))
                <> SecretKeySelector_zero) by discriminate.
  assert (Hpem : pemCerts demo_env_register_fails "-----BEGIN CERTIFICATE-----" <> [])
    by discriminate.
  destruct (register_tls_failure demo_env_register_fails "argo"
              (demo_mysql_ca (secret "db-ca" "ca.pem")) (Some demo_pool) demo_state
              "argo" "s3cret" "-----BEGIN CERTIFICATE-----" "registration refused"
              Htable Hca eq_refl eq_refl eq_refl Hpem eq_refl)
    as (Hret & _ & Hregistry & Hsessions & _).
  repeat split; assumption.
Defined.

(** *** What the builders leave alone *)

Lemma CreatePostGresDBSession_registry_frame E ns cfg pool st :
  registry_frame st (CreatePostGresDBSession E ns cfg pool st).
Proof.
  unfold registry_frame.
  explore (CreatePostGresDBSession E ns cfg pool) st pool.
  all: norm_events; repeat split; try done.
  all: intros key ok; rewrite ?elem_of_cons, elem_of_nil; intros Hin.
  all: repeat (destruct Hin as [Hin|Hin]; [discriminate Hin |]); done.
Qed.

Lemma CreateMySQLDBSession_registry_frame E ns cfg pool st :
  registry_frame st (CreateMySQLDBSession E ns cfg pool st).
Proof.
  unfold registry_frame.
  explore (CreateMySQLDBSession E ns cfg pool) st pool.
  all: norm_events;
    (split;
     [ intros key ok; rewrite ?elem_of_cons, elem_of_nil; intros Hin;
       repeat (destruct Hin as [Hin|Hin]; [try discriminate Hin |]);
       first [ done | by injection Hin as -> ]
     | split;
       [ intros key Hkey; first [ done | by rewrite lookup_insert_ne ]
       | intros Hnone;
         first [ reflexivity
               | exfalso; eapply Hnone; rewrite !elem_of_cons; eauto 10 ] ] ]).
Qed.

(** X11: whatever the configuration and the outcome, [CreateDBSession]
    registers TLS configurations under the name "argo-ca-cert" only, leaves
    every other entry of the driver's registry as it was, and leaves the
    whole registry as it was unless a registration succeeded. *)
Theorem CreateDBSession_registry_frame (E : Env) (namespace : string)
    (persistConfig : option PersistConfig.t) (st : State) :
  registry_frame st (CreateDBSession E namespace persistConfig st).
Proof.
  destruct persistConfig as [[[pg|] [my|] pool]|]; unfold CreateDBSession;
    cbn [PersistConfig.PostgreSQL PersistConfig.MySQL PersistConfig.ConnectionPool].
  1,2: apply CreatePostGresDBSession_registry_frame.
  1: apply CreateMySQLDBSession_registry_frame.
  all: unfold registry_frame, events_since; cbn [fst snd]; rewrite drop_all.
  all: repeat split; try done; intros key ok Hin; by apply elem_of_nil in Hin.
Qed.

(** X12: the builders leave the maps that exist in the store alone, with one
    exception.  The PostgreSQL builder changes none; the MySQL builder
    changes at most the options map of its configuration, and in that map
    nothing but the entry [tls]. *)
Theorem existing_maps_frame (E : Env) (namespace : string) (st : State) :
  (forall cfg pool l m,
     maps st !! l = Some m ->
     maps (snd (CreatePostGresDBSession E namespace cfg pool st)) !! l = Some m)
  /\ (forall cfg pool l m,
     maps st !! l = Some m ->
     exists m',
       maps (snd (CreateMySQLDBSession E namespace cfg pool st)) !! l = Some m'
       /\ (forall k, k <> "tls" -> m' !! k = m !! k)
       /\ (MySQLConfig.Options cfg <> Some l -> m' = m)).
Proof.
  split; intros cfg pool l m Hm.
  - assert (Hne : fresh (dom (maps st)) <> l) by (apply fresh_ne_key; eauto).
    revert Hm Hne.
    explore (CreatePostGresDBSession E namespace cfg pool) st pool.
    all: intros Hm Hne; simpl_lookups; done.
  - assert (Hne : fresh (dom (maps st)) <> l) by (apply fresh_ne_key; eauto).
    revert Hm Hne.
    explore (CreateMySQLDBSession E namespace cfg pool) st pool.
    all: intros Hm Hne.
    all: try (exists m; split; [simpl_lookups; done | split; done]).
    all: match goal with
         | H : MySQLConfig.Options _ = Some ?l0 |- _ =>
             destruct (decide (l0 = l)) as [->|Hne']
         end.
    all: try (exists m; split; [by rewrite lookup_insert_ne | split; done]).
    all: rewrite lookup_insert_eq, Hm; eexists; split; [reflexivity |].
    all: split; [intros k Hk; by rewrite lookup_insert_ne | done].
Qed.

(** X13: the MySQL builder writes into the configuration it was given.  When
    the configuration has an options map, the builder sets [tls] to
    "argo-ca-cert" in that very map once the registration has succeeded
    (whether or not [Open] then succeeds), and leaves the map as it was on
    every other path. *)
Theorem options_map_is_written (E : Env) (namespace : string) (cfg : MySQLConfig.t)
    (pool : option ConnectionPool) (st : State) (l : MapRef) :
  MySQLConfig.Options cfg = Some l ->
  let res := CreateMySQLDBSession E namespace cfg pool st in
  (EvRegisterTLSConfig "argo-ca-cert" true ∈ events_since st (snd res) ->
     maps (snd res) !! l = Some (<["tls" := "argo-ca-cert"]> (map_at st l)))
  /\ (EvRegisterTLSConfig "argo-ca-cert" true ∉ events_since st (snd res) ->
     maps (snd res) !! l = maps st !! l).
Proof.
  intros Hoptions. cbv zeta.
  explore (CreateMySQLDBSession E namespace cfg pool) st pool.
  all: norm_events; rewrite ?elem_of_cons, elem_of_nil;
    (split; intros Hin;
     [ first [ by rewrite lookup_insert_eq
             | repeat (destruct Hin as [Hin|Hin]; [try discriminate Hin |]); done ]
     | first [ reflexivity | exfalso; apply Hin; eauto 10 ] ]).
Qed.

Lemma options_map_is_written_witness :
  let res := CreateMySQLDBSession demo_env "argo"
               (demo_mysql_ca (secret "db-ca" "ca.pem")) (Some demo_pool) demo_state in
  MySQLConfig.Options (demo_mysql_ca (secret "db-ca" "ca.pem")) = Some 1%positive
  /\ maps demo_state !! 1%positive = Some {[ "parseTime" := "true" ]}
  /\ maps (snd res) !! 1%positive
     = Some (<["tls" := "argo-ca-cert"]> (map_at demo_state 1%positive)).
Proof.
  cbv zeta. split; [reflexivity | split; [reflexivity |]].
  apply (proj1 (options_map_is_written demo_env "argo"
                  (demo_mysql_ca (secret "db-ca" "ca.pem")) (Some demo_pool)
                  demo_state 1%positive eq_refl)).
  vm_compute. do 4 apply list_elem_of_further. apply list_elem_of_here.
Defined.

(** *** Pool configuration, secrets and calls *)

(** X14: [ConfigureDBSession] overwrites all three limits.  Configuring a
    session with one pool configuration and then with another makes the six
    setter calls in order and leaves the session with the three limits of the
    second configuration and nothing of the first, otherwise as it was: the
    sessions are as after configuring with the second alone. *)
Theorem ConfigureDBSession_last_wins (session : Session) (p q : ConnectionPool)
    (st : State) :
  let st2 := snd (ConfigureDBSession session (Some q)
                    (snd (ConfigureDBSession session (Some p) st))) in
  sessions st2 = sessions (snd (ConfigureDBSession session (Some q) st))
  /\ sessions st2 !! session
     = (fun s => {| s_backend := s_backend s; s_descriptor := s_descriptor s;
                    s_maxOpenConns := Some (MaxOpenConns q);
                    s_maxIdleConns := Some (MaxIdleConns q);
                    s_connMaxLifetime := Some (ConnMaxLifetime q);
                    s_executed := s_executed s |}) <$> sessions st !! session
  /\ (forall other, other <> session -> sessions st2 !! other = sessions st !! other)
  /\ events_since st st2
     = [EvSetMaxOpenConns (MaxOpenConns p); EvSetMaxIdleConns (MaxIdleConns p);
        EvSetConnMaxLifetime (ConnMaxLifetime p);
        EvSetMaxOpenConns (MaxOpenConns q); EvSetMaxIdleConns (MaxIdleConns q);
        EvSetConnMaxLifetime (ConnMaxLifetime q)].
Proof.
  cbv zeta. rewrite !ConfigureDBSession_eq. cbn [fst snd sessions trace].
  repeat split.
  - apply map_eq; intros h. destruct (decide (session = h)) as [<-|Hne].
    + rewrite !lookup_alter_eq. by destruct (sessions st !! session).
    + by rewrite !lookup_alter_ne.
  - rewrite !lookup_alter_eq. by destruct (sessions st !! session).
  - intros other Hne. by rewrite !lookup_alter_ne.
  - apply events_since_app. cbn [trace pool_events]. by rewrite <- app_assoc.
Qed.

(** X15: the builders read only the secrets the configuration names, in the
    namespace they were given, each at most once and in a fixed order:
    username, password and, for MySQL, the CA certificate. *)
Theorem secrets_read_in_order (E : Env) (namespace : string) (st : State) :
  (forall cfg pool,
     secret_reads
       (events_since st (snd (CreatePostGresDBSession E namespace cfg pool st)))
     `prefix_of`
     [(namespace, Name (PostgreSQLConfig.UsernameSecret cfg),
       Key (PostgreSQLConfig.UsernameSecret cfg));
      (namespace, Name (PostgreSQLConfig.PasswordSecret cfg),
       Key (PostgreSQLConfig.PasswordSecret cfg))])
  /\ (forall cfg pool,
     secret_reads
       (events_since st (snd (CreateMySQLDBSession E namespace cfg pool st)))
     `prefix_of`
     [(namespace, Name (MySQLConfig.UsernameSecret cfg),
       Key (MySQLConfig.UsernameSecret cfg));
      (namespace, Name (MySQLConfig.PasswordSecret cfg),
       Key (MySQLConfig.PasswordSecret cfg));
      (namespace, Name (MySQLConfig.CaCertSecret cfg),
       Key (MySQLConfig.CaCertSecret cfg))]).
Proof.
  split; intros cfg pool.
  - explore (CreatePostGresDBSession E namespace cfg pool) st pool.
    all: norm_events; cbn; by eexists.
  - explore (CreateMySQLDBSession E namespace cfg pool) st pool.
    all: norm_events; cbn; by eexists.
Qed.

(** X16: [CreatePostGresDBSession] calls nothing but the secret store,
    [Open] on the PostgreSQL client and the pool setters: it executes no
    statement, parses no certificate and registers no TLS configuration. *)
Theorem postgres_calls (E : Env) (namespace : string) (cfg : PostgreSQLConfig.t)
    (pool : option ConnectionPool) (st : State) :
  forallb postgres_call
    (events_since st (snd (CreatePostGresDBSession E namespace cfg pool st))) = true.
Proof.
  explore (CreatePostGresDBSession E namespace cfg pool) st pool.
  all: norm_events; reflexivity.
Qed.

(** *** Open failures, and the table name of a MySQL session *)

Lemma CreatePostGresDBSession_open_failure E ns cfg pool st pre b d post :
  let res := CreatePostGresDBSession E ns cfg pool st in
  events_since st (snd res) = pre ++ EvOpen b d false :: post ->
  post = []
  /\ sessions (snd res) = sessions st
  /\ exists msg, Open_err E b d = Some msg /\ fst res = Ret2 None (Some (OpenError msg)).
Proof.
  cbv zeta.
  explore (CreatePostGresDBSession E ns cfg pool) st pool.
  all: norm_events; intros Hsplit; invert_split Hsplit pre.
  all: repeat split; eauto.
Qed.

Lemma CreateMySQLDBSession_open_failure E ns cfg pool st pre b d post :
  let res := CreateMySQLDBSession E ns cfg pool st in
  events_since st (snd res) = pre ++ EvOpen b d false :: post ->
  post = []
  /\ sessions (snd res) = sessions st
  /\ exists msg, Open_err E b d = Some msg /\ fst res = Ret2 None (Some (OpenError msg)).
Proof.
  cbv zeta.
  explore (CreateMySQLDBSession E ns cfg pool) st pool.
  all: norm_events; intros Hsplit; invert_split Hsplit pre.
  all: repeat split; eauto.
Qed.

(** X17: when [Open] fails, [CreateDBSession] makes no further call (no pool
    setter, no statement), adds no session to the store, and returns the
    database client's error as it is, with no session. *)
Theorem open_failure (E : Env) (namespace : string)
    (persistConfig : option PersistConfig.t) (st : State)
    (pre : list Event) (b : Backend) (d : Descriptor) (post : list Event) :
  let res := CreateDBSession E namespace persistConfig st in
  events_since st (snd res) = pre ++ EvOpen b d false :: post ->
  post = []
  /\ sessions (snd res) = sessions st
  /\ exists msg, Open_err E b d = Some msg /\ fst res = Ret2 None (Some (OpenError msg)).
Proof.
  destruct persistConfig as [[[pg|] [my|] pool]|]; cbv zeta; unfold CreateDBSession;
    cbn [PersistConfig.PostgreSQL PersistConfig.MySQL PersistConfig.ConnectionPool].
  1,2: apply CreatePostGresDBSession_open_failure.
  1: apply CreateMySQLDBSession_open_failure.
  all: unfold events_since; cbn [fst snd]; rewrite drop_all.
  all: intros Hsplit; destruct pre; discriminate Hsplit.
Qed.

Lemma open_failure_witness :
  let E := {| GetSecrets := demo_secrets; pemCerts := pemCerts demo_env;
              RegisterTLSConfig_err := fun _ => None;
              Open_err := fun _ _ => Some "connection refused";
              Exec_err := fun _ _ => None |} in
  let res := CreateDBSession E "argo" (Some demo_config) demo_state in
  sessions (snd res) = sessions demo_state
  /\ fst res = Ret2 None (Some (OpenError "connection refused")).
Proof.
  cbv zeta.
  destruct (open_failure
              {| GetSecrets := demo_secrets; pemCerts := pemCerts demo_env;
                 RegisterTLSConfig_err := fun _ => None;
                 Open_err := fun _ _ => Some "connection refused";
                 Exec_err := fun _ _ => None |}
              "argo" (Some demo_config) demo_state
              [EvGetSecrets "argo" "db-creds" "username" true;
               EvGetSecrets "argo" "db-creds" "password" true;
               EvGetSecrets "argo" "db-ca" "ca.pem" true;
               EvAppendCertsFromPEM "-----BEGIN CERTIFICATE-----" true;
               EvRegisterTLSConfig "argo-ca-cert" true]
              Mysql
              {| d_User := "argo"; d_Password := "s3cret"; d_Host := "mysql:3306";
                 d_Database := "argo";
                 d_Options :=
                   Some {[ "parseTime" := "true"; "tls" := "argo-ca-cert" ]} |}
              [] eq_refl)
    as (_ & Hsessions & msg & Hmsg & Hret).
  split; [exact Hsessions |].
  injection Hmsg as <-. exact Hret.
Defined.

(** X18: a session built from a MySQL-only configuration has a table name:
    whenever [CreateDBSession] returns a session for it, [GetTableName] on
    the same configuration returns the MySQL table name and no error. *)
Theorem mysql_session_has_table_name (E : Env) (namespace : string)
    (cfg : MySQLConfig.t) (pool : option ConnectionPool) (st : State) (h : Session) :
  let persistConfig :=
    {| PersistConfig.PostgreSQL := None; PersistConfig.MySQL := Some cfg;
       PersistConfig.ConnectionPool := pool |} in
  ret_session (fst (CreateDBSession E namespace (Some persistConfig) st)) = Some h ->
  GetTableName persistConfig = (MySQLConfig.TableName cfg, None).
Proof.
  cbv zeta. unfold CreateDBSession, GetTableName;
    cbn [PersistConfig.PostgreSQL PersistConfig.MySQL PersistConfig.ConnectionPool].
  explore (CreateMySQLDBSession E namespace cfg pool) st pool.
  all: cbn [ret_session]; intros Hh; try discriminate Hh.
  all: reflexivity.
Qed.

Lemma mysql_session_has_table_name_witness :
  exists h,
    ret_session (fst (CreateDBSession demo_env "argo" (Some demo_config) demo_state))
    = Some h
    /\ GetTableName demo_config = ("argo_workflows", None).
Proof.
  exists 1%positive. split; [reflexivity |].
  exact (mysql_session_has_table_name demo_env "argo"
           (demo_mysql_ca (secret "db-ca" "ca.pem")) (Some demo_pool) demo_state
           1%positive eq_refl).
Defined.
